(** * Extreme-weather alert classification

    A shallow embedding of [WeatherService.analyze_extreme_conditions]
    (weather_app/mod6_labs/weather_service.py) and of the functions of
    [WeatherApp] that consume its result or keep the search history
    ([display_alerts], [create_alert_banner], the spoken warning of
    [get_weather], [add_to_history]; weather_app/mod6_labs/main.py), with the
    properties the specification states about the classifier and further
    properties of the code.

    Python values are embedded as the parsed JSON they come from.  An [int]
    is a [Z]; a [float] is the rational it denotes (the infinities and NaN
    are left out) and arithmetic on floats is exact, where Python rounds to
    the nearest double.  Every operation that can raise in Python returns
    in the error monad [res], an int beyond the doubles included. *)

From Stdlib Require Import QArith Qabs Lqa.
From stdpp Require Import gmap strings pretty list fin_maps sorting.

Local Open Scope Q_scope.

(** ** Python values *)

Module Py.

#[warnings="-register-all"]
Inductive pyval :=
  | VNone
  | VBool (b : bool)
  | VInt (z : Z)
  | VFloat (q : Q)
  | VStr (s : string)
  | VList (l : list pyval)
  | VDict (d : gmap string pyval).

Inductive exn :=
  AttributeError | IndexError | KeyError | TypeError | ValueError | OverflowError.

Inductive res (A : Type) :=
  | Ok (a : A)
  | Raise (e : exn).
Arguments Ok {A} a.
Arguments Raise {A} e.

#[global] Instance res_ret : MRet res := λ A a, Ok a.
#[global] Instance res_bind : MBind res := λ A B f m,
  match m with
  | Ok a => f a
  | Raise e => Raise e
  end.

(** [v.get(key, dflt)]: only a dict has the method. *)
Definition py_get (v : pyval) (key : string) (dflt : pyval) : res pyval :=
  match v with
  | VDict d => Ok (default dflt (d !! key))
  | _ => Raise AttributeError
  end.

(** [v[0]]: the first element of a list or string; a dict with string keys
    has no key [0]; the other values are not subscriptable. *)
Definition py_item0 (v : pyval) : res pyval :=
  match v with
  | VList (x :: _) => Ok x
  | VList [] => Raise IndexError
  | VStr (String c _) => Ok (VStr (String c ""))
  | VStr "" => Raise IndexError
  | VDict _ => Raise KeyError
  | _ => Raise TypeError
  end.

(** The number a value denotes in arithmetic and ordering; [bool] is a
    subclass of [int].  Anything else raises [TypeError] there. *)
Definition as_num (v : pyval) : res Q :=
  match v with
  | VBool b => Ok (if b then 1 else 0)
  | VInt z => Ok (inject_Z z)
  | VFloat q => Ok q
  | _ => Raise TypeError
  end.

(** [v >= k], [v <= k], [v < k] against a numeric literal. *)
Definition py_ge (v : pyval) (k : Q) : res bool :=
  n ← as_num v; mret (Qle_bool k n).
Definition py_le (v : pyval) (k : Q) : res bool :=
  n ← as_num v; mret (Qle_bool n k).
Definition py_lt (v : pyval) (k : Q) : res bool :=
  n ← as_num v; mret (negb (Qle_bool k n)).

(** The chained comparison [lo <= v < hi]. *)
Definition py_between (lo : Q) (v : pyval) (hi : Q) : res bool :=
  b ← py_ge v lo; if b : bool then py_lt v hi else mret false.

(** [v == k] against a numeric literal never raises. *)
Definition py_eq (v : pyval) (k : Q) : bool :=
  match as_num v with
  | Ok n => Qeq_bool n k
  | Raise _ => false
  end.

(** [v in ks] for a list of numeric literals. *)
Definition py_in (v : pyval) (ks : list Q) : bool :=
  existsb (py_eq v) ks.

(** The doubles end below [2^1024 - 2^970]: an int of that magnitude or more
    does not convert to a float, and a true division of ints with such a
    quotient has no result; both raise [OverflowError].  Operations on
    floats do not raise. *)
Definition double_bound : Z := (2 ^ 1024 - 2 ^ 970)%Z.

Definition overflows (q : Q) : bool :=
  Qle_bool (inject_Z double_bound) (Qabs q).

(** [float(v)], as in the division of a number by a float. *)
Definition as_float (v : pyval) : res Q :=
  match v with
  | VInt z =>
      if overflows (inject_Z z) then Raise OverflowError else Ok (inject_Z z)
  | _ => as_num v
  end.

(** [v / k] for a float literal [k]. *)
Definition py_div_float (v : pyval) (k : Q) : res pyval :=
  w ← as_float v; mret (VFloat (w / k)).

(** [(v - a) * b / c] for int literals [a], [b], [c]: the subtraction wants
    a number; on an int (or a bool) the difference and the product are ints
    and the true division raises when the quotient overflows; on a float
    nothing raises. *)
Definition py_sub_mul_div (v : pyval) (a b c : Q) : res pyval :=
  n ← as_num v;
  let q := (n - a) * b / c in
  match v with
  | VFloat _ => mret (VFloat q)
  | _ => if overflows q then Raise OverflowError else mret (VFloat q)
  end.

End Py.
Export Py.

(** ** The alert record

    The dict literal appended by every branch has the same eight keys. *)

Record alert := {
  type : string;
  severity : string;
  message : string;
  description : string;
  recommendation : string;
  icon : string;
  color : string;
  bg_color : string
}.

(** ** The classifier *)

(** Line 69: [temp = data.get("main", {}).get("temp", 0)]. *)
Definition read_temp (data : pyval) : res pyval :=
  main ← py_get data "main" (VDict ∅); py_get main "temp" (VInt 0).

(** Line 70: [feels_like = data.get("main", {}).get("feels_like", 0)]. *)
Definition read_feels_like (data : pyval) : res pyval :=
  main ← py_get data "main" (VDict ∅); py_get main "feels_like" (VInt 0).

(** Line 71: [humidity = data.get("main", {}).get("humidity", 0)]. *)
Definition read_humidity (data : pyval) : res pyval :=
  main ← py_get data "main" (VDict ∅); py_get main "humidity" (VInt 0).

(** Line 72: [wind_speed = data.get("wind", {}).get("speed", 0)]. *)
Definition read_wind_speed (data : pyval) : res pyval :=
  wind ← py_get data "wind" (VDict ∅); py_get wind "speed" (VInt 0).

(** Line 73: [weather_id = data.get("weather", [{}])[0].get("id", 800)]. *)
Definition read_weather_id (data : pyval) : res pyval :=
  weather ← py_get data "weather" (VList [VDict ∅]);
  first ← py_item0 weather;
  py_get first "id" (VInt 800).

Definition imperial (unit : string) : bool := String.eqb unit "imperial".
Definition metric (unit : string) : bool := String.eqb unit "metric".

Section Classifier.

(** [py_format v spec] is Python's [format(v, spec)], the builtin behind
    the replacement fields [{v:spec}] of an f-string. *)
Variable py_format : pyval → string → string.

(** The replacement field [{v:.1f}]: the format code [f] converts a number
    to a float first, rejects a string with [ValueError] and anything else
    with [TypeError]. *)
Definition format_1f (v : pyval) : res string :=
  match v with
  | VInt z =>
      if overflows (inject_Z z) then Raise OverflowError
      else Ok (py_format v ".1f")
  | VBool _ | VFloat _ => Ok (py_format v ".1f")
  | VStr _ => Raise ValueError
  | _ => Raise TypeError
  end.

(** Lines 83-127. *)
Definition temperature_alerts (temp temp_c : pyval) (unit : string)
    (alerts : list alert) : res (list alert) :=
  let description :=
    (text ← format_1f temp;
     mret ("Temperature is " +:+ text +:+ "°"
             +:+ (if imperial unit then "F" else "C"))) in
  hot ← py_ge temp_c 35;
  if hot : bool then
    description ← description;
    mret (alerts ++ [
      {| type := "temperature";
         severity := "high";
         message := "🌡️ Extreme Heat Warning";
         description := description;
         recommendation := "Stay hydrated, avoid direct sun, and wear lightweight clothing";
         icon := "WARNING_AMBER";
         color := "RED_700";
         bg_color := "RED_50" |} ])
  else
  warm ← py_ge temp_c 30;
  if warm : bool then
    description ← description;
    mret (alerts ++ [
      {| type := "temperature";
         severity := "moderate";
         message := "☀️ High Temperature";
         description := description;
         recommendation := "Wear sunscreen and stay hydrated";
         icon := "WB_SUNNY";
         color := "ORANGE_700";
         bg_color := "ORANGE_50" |} ])
  else
  cold ← py_le temp_c (-10);
  if cold : bool then
    description ← description;
    mret (alerts ++ [
      {| type := "temperature";
         severity := "high";
         message := "🥶 Extreme Cold Warning";
         description := description;
         recommendation := "Wear multiple layers, cover exposed skin, and limit outdoor time";
         icon := "AC_UNIT";
         color := "BLUE_700";
         bg_color := "BLUE_50" |} ])
  else
  freezing ← py_le temp_c 0;
  if freezing : bool then
    description ← description;
    mret (alerts ++ [
      {| type := "temperature";
         severity := "moderate";
         message := "❄️ Freezing Temperature";
         description := description;
         recommendation := "Wear warm clothing and watch for ice on roads";
         icon := "AC_UNIT";
         color := "CYAN_700";
         bg_color := "CYAN_50" |} ])
  else mret alerts.

(** Lines 129-151. *)
Definition feels_like_alerts (feels_like feels_like_c : pyval) (unit : string)
    (alerts : list alert) : res (list alert) :=
  let description :=
    (text ← format_1f feels_like;
     mret ("Feels like " +:+ text +:+ "°"
             +:+ (if imperial unit then "F" else "C"))) in
  hot ← py_ge feels_like_c 40;
  if hot : bool then
    description ← description;
    mret (alerts ++ [
      {| type := "feels_like";
         severity := "high";
         message := "🔥 Dangerous Heat Index";
         description := description;
         recommendation := "Avoid strenuous activity, seek air conditioning, drink plenty of water";
         icon := "LOCAL_FIRE_DEPARTMENT";
         color := "DEEP_ORANGE_700";
         bg_color := "DEEP_ORANGE_50" |} ])
  else
  cold ← py_le feels_like_c (-20);
  if cold : bool then
    description ← description;
    mret (alerts ++ [
      {| type := "feels_like";
         severity := "high";
         message := "💨 Extreme Wind Chill";
         description := description;
         recommendation := "Limit time outdoors, cover all exposed skin, frostbite risk is high";
         icon := "AIR";
         color := "INDIGO_700";
         bg_color := "INDIGO_50" |} ])
  else mret alerts.

(** Lines 153-175.  The f-string of lines 159 and 170 has no format
    specification, so no conversion to a double takes place and an integer
    of any size is written out in decimal.  (An interpreter that limits the
    decimal length of integers refuses one of several thousand digits with
    a ValueError; this limit is a setting of the interpreter and is not
    part of the model.  [well_formed] keeps the humidity within the doubles,
    far below it.) *)
Definition humidity_alerts (humidity : pyval) (alerts : list alert)
    : res (list alert) :=
  let description := "Humidity is " +:+ py_format humidity "" +:+ "%" in
  humid ← py_ge humidity 90;
  if humid : bool then
    mret (alerts ++ [
      {| type := "humidity";
         severity := "moderate";
         message := "💦 Very High Humidity";
         description := description;
         recommendation := "Stay hydrated and avoid strenuous activity";
         icon := "WATER_DROP";
         color := "TEAL_700";
         bg_color := "TEAL_50" |} ])
  else
  dry ← py_le humidity 20;
  if dry : bool then
    mret (alerts ++ [
      {| type := "humidity";
         severity := "moderate";
         message := "🏜️ Low Humidity";
         description := description;
         recommendation := "Use moisturizer and stay hydrated";
         icon := "WATER_DROP";
         color := "AMBER_700";
         bg_color := "AMBER_50" |} ])
  else mret alerts.

(** Lines 177-200. *)
Definition wind_alerts (wind_speed : pyval) (unit : string)
    (alerts : list alert) : res (list alert) :=
  let description :=
    (text ← format_1f wind_speed;
     mret ("Wind speed is " +:+ text +:+ " "
             +:+ (if imperial unit then "mph" else "m/s"))) in
  wind_mps ←
    (if metric unit then mret wind_speed else py_div_float wind_speed 2.237);
  gale ← py_ge wind_mps 20;
  if gale : bool then
    description ← description;
    mret (alerts ++ [
      {| type := "wind";
         severity := "high";
         message := "💨 High Wind Warning";
         description := description;
         recommendation := "Secure loose objects, avoid outdoor activities";
         icon := "AIR";
         color := "PURPLE_700";
         bg_color := "PURPLE_50" |} ])
  else
  windy ← py_ge wind_mps 10;
  if windy : bool then
    description ← description;
    mret (alerts ++ [
      {| type := "wind";
         severity := "moderate";
         message := "🌬️ Windy Conditions";
         description := description;
         recommendation := "Hold onto hats and lightweight items";
         icon := "AIR";
         color := "BLUE_GREY_700";
         bg_color := "BLUE_GREY_50" |} ])
  else mret alerts.

(** Lines 202-253. *)
Definition condition_alerts (weather_id : pyval) (alerts : list alert)
    : res (list alert) :=
  thunderstorm ← py_between 200 weather_id 300;
  if thunderstorm : bool then
    mret (alerts ++ [
      {| type := "storm";
         severity := "high";
         message := "⛈️ Thunderstorm Alert";
         description := "Thunderstorm in the area";
         recommendation := "Seek indoor shelter, avoid open areas and tall objects";
         icon := "FLASH_ON";
         color := "DEEP_PURPLE_700";
         bg_color := "DEEP_PURPLE_50" |} ])
  else
  rain ← py_between 500 weather_id 600;
  if rain && negb (py_in weather_id [500; 501]) then
    mret (alerts ++ [
      {| type := "rain";
         severity := "moderate";
         message := "🌧️ Heavy Rain";
         description := "Heavy rainfall expected";
         recommendation := "Bring an umbrella, use caution when driving";
         icon := "BEACH_ACCESS";
         color := "BLUE_700";
         bg_color := "BLUE_50" |} ])
  else
  snow ← py_between 600 weather_id 700;
  if snow : bool then
    light ← py_lt weather_id 602;
    mret (alerts ++ [
      {| type := "snow";
         severity := if light : bool then "moderate" else "high";
         message := "❄️ Snow Alert";
         description := "Snowfall expected";
         recommendation := "Allow extra travel time, drive cautiously";
         icon := "AC_UNIT";
         color := "LIGHT_BLUE_700";
         bg_color := "LIGHT_BLUE_50" |} ])
  else
  fog ← py_between 700 weather_id 800;
  if fog : bool then
    mret (alerts ++ [
      {| type := "fog";
         severity := "moderate";
         message := "🌫️ Reduced Visibility";
         description := "Fog or mist reducing visibility";
         recommendation := "Use low beam headlights, drive slowly";
         icon := "FOGGY";
         color := "GREY_700";
         bg_color := "GREY_50" |} ])
  else mret alerts.

(** Lines 68-255; lines 75-81 convert to Celsius for the thresholds. *)
Definition analyze_extreme_conditions (data : pyval) (unit : string)
    : res (list alert) :=
  let alerts := [] in
  temp ← read_temp data;
  feels_like ← read_feels_like data;
  humidity ← read_humidity data;
  wind_speed ← read_wind_speed data;
  weather_id ← read_weather_id data;
  '(temp_c, feels_like_c) ←
    (if imperial unit then
       temp_c ← py_sub_mul_div temp 32 5 9;
       feels_like_c ← py_sub_mul_div feels_like 32 5 9;
       mret (temp_c, feels_like_c)
     else mret (temp, feels_like));
  alerts ← temperature_alerts temp temp_c unit alerts;
  alerts ← feels_like_alerts feels_like feels_like_c unit alerts;
  alerts ← humidity_alerts humidity alerts;
  alerts ← wind_alerts wind_speed unit alerts;
  alerts ← condition_alerts weather_id alerts;
  mret alerts.

End Classifier.


(** ** The threshold table of the specification

    The rows of the table in section 4.1, group by group and in the listed
    order.  A row fires on the normalized measurement [c]; what it
    contributes to a record is its category, its severity and its headline
    (the record's [message]). *)

Definition signature : Type := string * string * string.

Definition sig (r : alert) : signature := (type r, severity r, message r).

Record rule := {
  applies : Q → bool;
  category : string;
  level : Q → string;
  headline : string
}.

Definition between (lo c hi : Q) : bool := Qle_bool lo c && negb (Qle_bool hi c).

Definition temperature_rules : list rule := [
  {| applies c := Qle_bool 35 c;
     category := "temperature"; level _ := "high";
     headline := "🌡️ Extreme Heat Warning" |};
  {| applies c := between 30 c 35;
     category := "temperature"; level _ := "moderate";
     headline := "☀️ High Temperature" |};
  {| applies c := Qle_bool c (-10);
     category := "temperature"; level _ := "high";
     headline := "🥶 Extreme Cold Warning" |};
  {| applies c := negb (Qle_bool c (-10)) && Qle_bool c 0;
     category := "temperature"; level _ := "moderate";
     headline := "❄️ Freezing Temperature" |} ].

Definition feels_like_rules : list rule := [
  {| applies c := Qle_bool 40 c;
     category := "feels_like"; level _ := "high";
     headline := "🔥 Dangerous Heat Index" |};
  {| applies c := Qle_bool c (-20);
     category := "feels_like"; level _ := "high";
     headline := "💨 Extreme Wind Chill" |} ].

Definition humidity_rules : list rule := [
  {| applies c := Qle_bool 90 c;
     category := "humidity"; level _ := "moderate";
     headline := "💦 Very High Humidity" |};
  {| applies c := Qle_bool c 20;
     category := "humidity"; level _ := "moderate";
     headline := "🏜️ Low Humidity" |} ].

Definition wind_rules : list rule := [
  {| applies c := Qle_bool 20 c;
     category := "wind"; level _ := "high";
     headline := "💨 High Wind Warning" |};
  {| applies c := between 10 c 20;
     category := "wind"; level _ := "moderate";
     headline := "🌬️ Windy Conditions" |} ].

Definition condition_rules : list rule := [
  {| applies c := between 200 c 300;
     category := "storm"; level _ := "high";
     headline := "⛈️ Thunderstorm Alert" |};
  {| applies c := between 500 c 600 && negb (Qeq_bool c 500 || Qeq_bool c 501);
     category := "rain"; level _ := "moderate";
     headline := "🌧️ Heavy Rain" |};
  {| applies c := between 600 c 700;
     category := "snow";
     level c := if negb (Qle_bool 602 c) then "moderate" else "high";
     headline := "❄️ Snow Alert" |};
  {| applies c := between 700 c 800;
     category := "fog"; level _ := "moderate";
     headline := "🌫️ Reduced Visibility" |} ].

(** The first row that applies, if any, fires; the rows after it are
    skipped. *)
Definition first_match (rules : list rule) (c : Q) : list signature :=
  match find (λ r, applies r c) rules with
  | Some r => [(category r, level r c, headline r)]
  | None => []
  end.

(** The values the thresholds are compared with (lines 76-81 and 178). *)
Definition celsius (unit : string) (v : Q) : Q :=
  if imperial unit then (v - 32) * 5 / 9 else v.

Definition mps (unit : string) (v : Q) : Q :=
  if metric unit then v else v / 2.237.

(** One pass over the five groups in the order of the table. *)
Definition classify (unit : string) (temp feels_like humidity wind_speed code : Q)
    : list signature :=
  first_match temperature_rules (celsius unit temp)
    ++ first_match feels_like_rules (celsius unit feels_like)
    ++ first_match humidity_rules humidity
    ++ first_match wind_rules (mps unit wind_speed)
    ++ first_match condition_rules code.

(** The five category groups, numbered in evaluation order; the condition
    group has the four categories storm, rain, snow and fog. *)
Definition group_rank (ty : string) : nat :=
  if String.eqb ty "temperature" then 0
  else if String.eqb ty "feels_like" then 1
  else if String.eqb ty "humidity" then 2
  else if String.eqb ty "wind" then 3
  else if existsb (String.eqb ty) ["storm"; "rain"; "snow"; "fog"] then 4
  else 5.

Definition rank (r : alert) : nat := group_rank (type r).

Definition sig_rank (s : signature) : nat := group_rank s.1.1.

(** The category and severity of a record. *)
Definition kind (r : alert) : string * string := (type r, severity r).

Definition kinds (m : res (list alert)) : res (list (string * string)) :=
  match m with
  | Ok l => Ok (kind <$> l)
  | Raise e => Raise e
  end.

(** ** Descriptions *)

Section Descriptions.

Variable py_format : pyval → string → string.

(** The f-strings of lines 89, 135, 159 and 184. *)
Definition temperature_description (temp : pyval) (unit : string) : string :=
  "Temperature is " +:+ py_format temp ".1f" +:+ "°"
    +:+ (if imperial unit then "F" else "C").

Definition feels_like_description (feels_like : pyval) (unit : string) : string :=
  "Feels like " +:+ py_format feels_like ".1f" +:+ "°"
    +:+ (if imperial unit then "F" else "C").

Definition humidity_description (humidity : pyval) : string :=
  "Humidity is " +:+ py_format humidity "" +:+ "%".

Definition wind_description (wind_speed : pyval) (unit : string) : string :=
  "Wind speed is " +:+ py_format wind_speed ".1f" +:+ " "
    +:+ (if imperial unit then "mph" else "m/s").

Definition condition_descriptions : list string :=
  ["Thunderstorm in the area"; "Heavy rainfall expected"; "Snowfall expected";
   "Fog or mist reducing visibility"].

(** What the description of a record shows, by group. *)
Definition described (unit : string) (temp feels_like humidity wind_speed : pyval)
    (r : alert) : Prop :=
  match group_rank (type r) with
  | 0%nat => description r = temperature_description temp unit
  | 1%nat => description r = feels_like_description feels_like unit
  | 2%nat => description r = humidity_description humidity
  | 3%nat => description r = wind_description wind_speed unit
  | _ => description r ∈ condition_descriptions
  end.

End Descriptions.

(** ** The severity sort of the presentation layer

    Lines 250-251 of [display_alerts]: a stable sort on the key
    [severity_order.get(x.get("severity", "moderate"), 2)]. *)

Definition severity_order : gmap string nat := {[ "high" := 0%nat; "moderate" := 1%nat ]}.

Definition severity_key (x : alert) : nat :=
  default 2%nat (severity_order !! severity x).

Fixpoint insert_by_key (x : alert) (sorted : list alert) : list alert :=
  match sorted with
  | [] => [x]
  | y :: rest =>
      if (severity_key x <=? severity_key y)%nat then x :: sorted
      else y :: insert_by_key x rest
  end.

Definition display_alerts_sort (alerts : list alert) : list alert :=
  foldr insert_by_key [] alerts.

(** ** A formatter to run the classifier with

    The classifier is parametric in Python's [format]; the theorems hold
    for every formatter.  This one only instantiates the parameter in
    witnesses and examples and is not Python's [format]: it prints the exact
    rational rounded half-to-even to one decimal, whatever the spec, except
    that an [int] under the empty spec is printed as it is. *)

Definition tenths (q : Q) : string :=
  let a := (Z.abs (Qnum q) * 10)%Z in
  let d := Z.pos (Qden q) in
  let k := (a / d)%Z in
  let r := (a mod d)%Z in
  let k := if (2 * r <? d)%Z then k
           else if (d <? 2 * r)%Z then (k + 1)%Z
           else if Z.even k then k else (k + 1)%Z in
  (if (Qnum q <? 0)%Z then "-" else "")
    +:+ pretty (k / 10)%Z +:+ "." +:+ pretty (k mod 10)%Z.

Definition sample_format (v : pyval) (spec : string) : string :=
  match v with
  | VInt z => if String.eqb spec "" then pretty z else tenths (inject_Z z)
  | VFloat q => tenths q
  | VBool b =>
      if String.eqb spec "" then (if b then "True" else "False")
      else tenths (if b then 1 else 0)
  | VStr s => s
  | _ => ""
  end.

(** ** Observations

    The part of an OpenWeatherMap response the classifier reads, with every
    field present: temperatures and wind speed are floats, humidity and the
    condition code are integers. *)

Definition observation (temp feels_like : Q) (humidity : Z) (speed : Q) (id : Z)
    : pyval :=
  VDict {[
    "main" := VDict {[
      "temp" := VFloat temp;
      "feels_like" := VFloat feels_like;
      "humidity" := VInt humidity ]};
    "wind" := VDict {[ "speed" := VFloat speed ]};
    "weather" := VList [VDict {[ "id" := VInt id ]}] ]}.

(** [reads_as read data v c]: the reading [read] of [data] is the Python
    value [v], and [v] is the number [c]. *)
Definition reads_as (read : pyval → res pyval) (data v : pyval) (c : Q) : Prop :=
  read data = Ok v ∧ as_num v = Ok c.

(** ** Well-formed dictionaries *)

(** A number that converts to a float: any float or bool, and an int within
    the doubles. *)
Definition fits_double (v : pyval) : bool :=
  match v with
  | VInt z => negb (overflows (inject_Z z))
  | VBool _ | VFloat _ => true
  | _ => false
  end.


(** A field of a nested dict that is either absent or a number. *)
Definition numeric (v : pyval) : Prop := ∃ c, as_num v = Ok c.

Definition absent_or_numeric (m : gmap string pyval) (key : string) : Prop :=
  match m !! key with
  | Some v => numeric v
  | None => True
  end.

(** A field that is either absent or a number that converts to a float. *)
Definition absent_or_float (m : gmap string pyval) (key : string) : Prop :=
  match m !! key with
  | Some v => fits_double v = true
  | None => True
  end.

(** The entries the classifier reads are absent or have the shape of the
    weather response: ["main"] and ["wind"] are dicts, ["weather"] is a list
    that starts with a dict, and the fields read in them are numbers; the
    temperatures, the humidity and the wind speed, which the descriptions
    print, are floats or ints within the doubles. *)
Definition well_formed (d : gmap string pyval) : Prop :=
  match d !! "main" with
  | None => True
  | Some (VDict m) =>
      absent_or_float m "temp" ∧ absent_or_float m "feels_like"
      ∧ absent_or_float m "humidity"
  | Some _ => False
  end
  ∧ match d !! "wind" with
    | None => True
    | Some (VDict m) => absent_or_float m "speed"
    | Some _ => False
    end
  ∧ match d !! "weather" with
    | None => True
    | Some (VList (VDict m :: _)) => absent_or_numeric m "id"
    | Some _ => False
    end.

(** The field [inner] of the entry [outer] is missing: the entry is absent,
    or it is a dict without the field. *)
Definition missing (d : gmap string pyval) (outer inner : string) : Prop :=
  match d !! outer with
  | None => True
  | Some (VDict m) => m !! inner = None
  | Some _ => False
  end.

(** The condition code is missing: ["weather"] is absent, or its first
    element is a dict without ["id"]. *)
Definition missing_id (d : gmap string pyval) : Prop :=
  match d !! "weather" with
  | None => True
  | Some (VList (VDict m :: _)) => m !! "id" = None
  | Some _ => False
  end.

(** ** The alert panel and the history (main.py)

    The functions of [WeatherApp] that consume the alert list, without the
    widgets: a container is its [visible] flag and its list of controls. *)

(** [create_alert_banner], lines 195-238: what a banner shows of an alert.
    A record of the classifier has every key, so no [alert.get] falls back
    on its default. *)
Record banner := {
  banner_icon : string;
  banner_color : string;
  banner_title : string;
  banner_text : string;
  banner_tip : string;
  banner_bg_color : string;
  banner_border : string
}.

Definition create_alert_banner (a : alert) : banner :=
  {| banner_icon := icon a;
     banner_color := color a;
     banner_title := message a;
     banner_text := description a;
     banner_tip := "💡 " +:+ recommendation a;
     banner_bg_color := bg_color a;
     banner_border := color a |}.

Inductive control :=
  | Header (text : string)
  | Banner (b : banner).

Record container := {
  visible : bool;
  controls : list control
}.

(** [display_alerts], lines 240-269.  The list is sorted in place, so the
    result has the list as the caller sees it afterwards, and the container. *)
Definition display_alerts (alerts_checkbox : bool) (alerts : list alert)
    : list alert * container :=
  if negb alerts_checkbox || match alerts with [] => true | _ => false end then
    (alerts, {| visible := false; controls := [] |})
  else
    let alerts := display_alerts_sort alerts in
    (alerts,
     {| visible := true;
        controls :=
          Header "⚠️ Weather Alerts & Recommendations"
            :: (Banner ∘ create_alert_banner <$> alerts) |}).

(** Lines 398-402 of [get_weather]: the warning added to the speech text. *)
Definition add_warning (speech_text : string) (current_alerts : list alert)
    : string :=
  let high_alerts := filter (λ a, severity a = "high") current_alerts in
  match high_alerts with
  | [] => speech_text
  | _ =>
      speech_text
        +:+ (" Warning: " +:+ String.concat ". " (message <$> high_alerts))
  end.

(** [add_to_history], lines 620-625, on the list in memory; [save_history]
    then writes the list to disk and changes nothing here. *)
Definition add_to_history (search_history : list string) (city : string)
    : list string :=
  if bool_decide (city ∈ search_history) then search_history
  else take 10 (city :: search_history).

(** ** The thresholds in the caller's units

    The rows of the temperature and wind groups with the thresholds
    converted to degrees Fahrenheit and miles per hour. *)

Definition temperature_rules_fahrenheit : list rule := [
  {| applies c := Qle_bool 95 c;
     category := "temperature"; level _ := "high";
     headline := "🌡️ Extreme Heat Warning" |};
  {| applies c := between 86 c 95;
     category := "temperature"; level _ := "moderate";
     headline := "☀️ High Temperature" |};
  {| applies c := Qle_bool c 14;
     category := "temperature"; level _ := "high";
     headline := "🥶 Extreme Cold Warning" |};
  {| applies c := negb (Qle_bool c 14) && Qle_bool c 32;
     category := "temperature"; level _ := "moderate";
     headline := "❄️ Freezing Temperature" |} ].

Definition wind_rules_mph : list rule := [
  {| applies c := Qle_bool 44.74 c;
     category := "wind"; level _ := "high";
     headline := "💨 High Wind Warning" |};
  {| applies c := between 22.37 c 44.74;
     category := "wind"; level _ := "moderate";
     headline := "🌬️ Windy Conditions" |} ].

(** An entry that is absent or a dict. *)
Definition absent_or_dict (d : gmap string pyval) (key : string) : Prop :=
  match d !! key with
  | None | Some (VDict _) => True
  | Some _ => False
  end.

(** * Proofs *)

(** ** Reasoning about the error monad *)

Lemma bind_Ok {A B} (m : res A) (f : A → res B) (b : B) :
  m ≫= f = Ok b ↔ ∃ a, m = Ok a ∧ f a = Ok b.
Proof.
  destruct m as [a|e]; simpl; split.
  - intros H. by exists a.
  - by intros (a' & [= ->] & H).
  - done.
  - by intros (a' & [=] & _).
Qed.

Lemma bind_Ok_l {A B} (a : A) (f : A → res B) : Ok a ≫= f = f a.
Proof. done. Qed.

Lemma as_num_py_ge v k c : as_num v = Ok c → py_ge v k = Ok (Qle_bool k c).
Proof. unfold py_ge. by intros ->. Qed.

Lemma as_num_py_le v k c : as_num v = Ok c → py_le v k = Ok (Qle_bool c k).
Proof. unfold py_le. by intros ->. Qed.

Lemma as_num_py_lt v k c : as_num v = Ok c → py_lt v k = Ok (negb (Qle_bool k c)).
Proof. unfold py_lt. by intros ->. Qed.

Lemma as_num_py_between lo v hi c :
  as_num v = Ok c → py_between lo v hi = Ok (between lo c hi).
Proof.
  intros Hc. unfold py_between, between.
  rewrite (as_num_py_ge _ _ _ Hc), bind_Ok_l, (as_num_py_lt _ _ _ Hc).
  by destruct (Qle_bool lo c).
Qed.

Lemma as_num_py_in2 v a b c :
  as_num v = Ok c → py_in v [a; b] = Qeq_bool c a || Qeq_bool c b.
Proof. unfold py_in, py_eq. simpl. intros ->. by rewrite orb_false_r. Qed.

Lemma py_ge_Ok v k b : py_ge v k = Ok b → ∃ c, as_num v = Ok c.
Proof. unfold py_ge. destruct (as_num v); [eauto | done]. Qed.

Lemma py_between_Ok lo v hi b : py_between lo v hi = Ok b → ∃ c, as_num v = Ok c.
Proof.
  unfold py_between. intros (b' & H & _)%bind_Ok. by eapply py_ge_Ok.
Qed.

(** ** Conversions to a float *)

Lemma overflows_false q :
  overflows q = false ↔ Qabs q < inject_Z double_bound.
Proof.
  unfold overflows. rewrite <- not_true_iff_false, Qle_bool_iff. split.
  - apply Qnot_le_lt.
  - apply Qlt_not_le.
Qed.

Lemma double_bound_large : 1000 <= inject_Z double_bound.
Proof. apply Qle_bool_iff. by vm_compute. Qed.

(** The Celsius value of a number within the doubles is within them. *)
Lemma celsius_no_overflow q :
  overflows q = false → overflows ((q - 32) * 5 / 9) = false.
Proof.
  rewrite !overflows_false, !Qabs_Qlt_condition.
  pose proof double_bound_large. generalize dependent (inject_Z double_bound).
  intros B HB [Hlo Hhi]. unfold Qdiv. change (/ 9) with (1 # 9). split; lra.
Qed.

Lemma fits_double_as_num v :
  fits_double v = true → ∃ c, as_num v = Ok c ∧ as_float v = Ok c.
Proof.
  destruct v; try done; simpl; [by eexists|..|by eexists].
  intros Hz%negb_true_iff. rewrite Hz. by eexists.
Qed.

Lemma as_float_Ok v w : as_float v = Ok w → as_num v = Ok w.
Proof.
  destruct v; try done. simpl. by destruct (overflows (inject_Z z)).
Qed.

Lemma py_sub_mul_div_fits v c :
  fits_double v = true → as_num v = Ok c →
  py_sub_mul_div v 32 5 9 = Ok (VFloat ((c - 32) * 5 / 9)).
Proof.
  unfold py_sub_mul_div. intros Hfit Hc. rewrite Hc, bind_Ok_l.
  destruct v; try done; simpl in Hc; injection Hc as <-.
  - assert (overflows (((if b then 1 else 0) - 32) * 5 / 9) = false) as ->
      by (destruct b; vm_compute; reflexivity).
    done.
  - simpl in Hfit. apply negb_true_iff in Hfit.
    by rewrite (celsius_no_overflow _ Hfit).
Qed.

Lemma py_sub_mul_div_Ok v r :
  py_sub_mul_div v 32 5 9 = Ok r →
  ∃ c, as_num v = Ok c ∧ r = VFloat ((c - 32) * 5 / 9).
Proof.
  unfold py_sub_mul_div. intros (c & Hc & H)%bind_Ok. exists c. split; [done|].
  destruct v; try done;
    try (destruct (overflows ((c - 32) * 5 / 9)); [done|]); by injection H.
Qed.

(** ** The groups, one at a time *)

(** A branch that appends its record, and the fall-through of a chain. *)
Ltac fires :=
  rewrite ?bind_Ok_l; cbv beta iota;
  eexists; split; [reflexivity|]; split; [reflexivity|by repeat constructor].

Ltac run := repeat (rewrite bind_Ok_l; cbv beta iota).

Ltac silent :=
  rewrite ?bind_Ok_l; cbv beta iota;
  exists []; rewrite app_nil_r; by repeat split.

Section Groups.

Variable py_format : pyval → string → string.

Lemma format_1f_Ok v text :
  format_1f py_format v = Ok text → text = py_format v ".1f".
Proof.
  destruct v; try done; simpl; try (by intros [= <-]).
  destruct (overflows (inject_Z z)); [done|by intros [= <-]].
Qed.

Lemma format_1f_fits v :
  fits_double v = true → format_1f py_format v = Ok (py_format v ".1f").
Proof.
  destruct v; try done. simpl. by intros ->%negb_true_iff.
Qed.

(** The same for a list that was returned: the format succeeded where a
    record was appended. *)
Ltac fired Hf :=
  rewrite ?bind_Ok_l; cbv beta iota zeta;
  match goal with
  | |- context [format_1f py_format ?v] =>
      destruct (format_1f py_format v) as [?text|?] eqn:Hf; [|done]
  end;
  rewrite ?bind_Ok_l; cbv beta iota; intros [= <-];
  apply format_1f_Ok in Hf as ->;
  eexists; split; [reflexivity|]; split; [reflexivity|by repeat constructor].

Ltac fell_through :=
  rewrite ?bind_Ok_l; cbv beta iota; intros [= <-];
  exists []; rewrite app_nil_r; by repeat split.

(** A group that returns has compared a number. *)
Lemma temperature_alerts_Ok temp temp_c unit alerts l :
  temperature_alerts py_format temp temp_c unit alerts = Ok l →
  ∃ c, as_num temp_c = Ok c.
Proof. intros (b & H & _)%bind_Ok. by eapply py_ge_Ok. Qed.

Lemma feels_like_alerts_Ok feels_like feels_like_c unit alerts l :
  feels_like_alerts py_format feels_like feels_like_c unit alerts = Ok l →
  ∃ c, as_num feels_like_c = Ok c.
Proof. intros (b & H & _)%bind_Ok. by eapply py_ge_Ok. Qed.

Lemma humidity_alerts_Ok humidity alerts l :
  humidity_alerts py_format humidity alerts = Ok l →
  ∃ c, as_num humidity = Ok c.
Proof. intros (b & H & _)%bind_Ok. by eapply py_ge_Ok. Qed.

Lemma condition_alerts_Ok weather_id alerts l :
  condition_alerts weather_id alerts = Ok l →
  ∃ c, as_num weather_id = Ok c.
Proof. intros (b & H & _)%bind_Ok. by eapply py_between_Ok. Qed.

(** What a group that returns has appended. *)
Lemma temperature_alerts_inv temp temp_c unit alerts l :
  temperature_alerts py_format temp temp_c unit alerts = Ok l →
  ∃ c b, as_num temp_c = Ok c
    ∧ l = alerts ++ b
    ∧ sig <$> b = first_match temperature_rules c
    ∧ Forall (λ r, type r = "temperature"
                   ∧ description r = temperature_description py_format temp unit) b.
Proof.
  intros H. destruct (temperature_alerts_Ok _ _ _ _ _ H) as [c Hc].
  exists c. cut (∃ b, l = alerts ++ b
    ∧ sig <$> b = first_match temperature_rules c
    ∧ Forall (λ r, type r = "temperature"
                   ∧ description r = temperature_description py_format temp unit) b).
  { intros (b & ? & ? & ?). by exists b. }
  revert H. unfold temperature_alerts.
  rewrite !(as_num_py_ge _ _ _ Hc), !(as_num_py_le _ _ _ Hc).
  unfold first_match, temperature_rules, between. cbn [find applies].
  destruct (Qle_bool 35 c); [fired Hf|].
  destruct (Qle_bool 30 c); [fired Hf|].
  destruct (Qle_bool c (-10)); [fired Hf|].
  destruct (Qle_bool c 0); [fired Hf|].
  fell_through.
Qed.

Lemma feels_like_alerts_inv feels_like feels_like_c unit alerts l :
  feels_like_alerts py_format feels_like feels_like_c unit alerts = Ok l →
  ∃ c b, as_num feels_like_c = Ok c
    ∧ l = alerts ++ b
    ∧ sig <$> b = first_match feels_like_rules c
    ∧ Forall (λ r, type r = "feels_like"
                   ∧ description r
                     = feels_like_description py_format feels_like unit) b.
Proof.
  intros H. destruct (feels_like_alerts_Ok _ _ _ _ _ H) as [c Hc].
  exists c. cut (∃ b, l = alerts ++ b
    ∧ sig <$> b = first_match feels_like_rules c
    ∧ Forall (λ r, type r = "feels_like"
                   ∧ description r
                     = feels_like_description py_format feels_like unit) b).
  { intros (b & ? & ? & ?). by exists b. }
  revert H. unfold feels_like_alerts.
  rewrite !(as_num_py_ge _ _ _ Hc), !(as_num_py_le _ _ _ Hc).
  unfold first_match, feels_like_rules. cbn [find applies].
  destruct (Qle_bool 40 c); [fired Hf|].
  destruct (Qle_bool c (-20)); [fired Hf|].
  fell_through.
Qed.

Lemma humidity_alerts_run humidity alerts c :
  as_num humidity = Ok c →
  ∃ b, humidity_alerts py_format humidity alerts = Ok (alerts ++ b)
    ∧ sig <$> b = first_match humidity_rules c
    ∧ Forall (λ r, type r = "humidity"
                   ∧ description r = humidity_description py_format humidity) b.
Proof.
  intros Hc. unfold humidity_alerts.
  rewrite !(as_num_py_ge _ _ _ Hc), !(as_num_py_le _ _ _ Hc).
  unfold first_match, humidity_rules. cbn [find applies].
  destruct (Qle_bool 90 c); [fires|].
  destruct (Qle_bool c 20); [fires|].
  silent.
Qed.

(** The wind speed in metres per second (line 178). *)
Lemma wind_mps_Ok wind_speed unit wind_mps :
  (if metric unit then mret wind_speed else py_div_float wind_speed 2.237)
  = Ok wind_mps →
  ∀ c, as_num wind_mps = Ok c →
  ∃ w, as_num wind_speed = Ok w ∧ c = mps unit w.
Proof.
  unfold mps. destruct (metric unit).
  - intros [= <-] c Hc. by exists c.
  - unfold py_div_float. intros (w & Hw%as_float_Ok & [= <-])%bind_Ok c [= <-].
    by exists w.
Qed.

Lemma wind_alerts_inv wind_speed unit alerts l :
  wind_alerts py_format wind_speed unit alerts = Ok l →
  ∃ w b, as_num wind_speed = Ok w
    ∧ l = alerts ++ b
    ∧ sig <$> b = first_match wind_rules (mps unit w)
    ∧ Forall (λ r, type r = "wind"
                   ∧ description r = wind_description py_format wind_speed unit) b.
Proof.
  unfold wind_alerts. intros (wind_mps & Hm & H)%bind_Ok.
  assert (∃ c, as_num wind_mps = Ok c) as [c Hc].
  { apply bind_Ok in H as (b & H & _). by eapply py_ge_Ok. }
  destruct (wind_mps_Ok _ _ _ Hm c Hc) as (w & Hw & ->).
  exists w. cut (∃ b, l = alerts ++ b
    ∧ sig <$> b = first_match wind_rules (mps unit w)
    ∧ Forall (λ r, type r = "wind"
                   ∧ description r = wind_description py_format wind_speed unit) b).
  { intros (b & ? & ? & ?). by exists b. }
  revert H. rewrite !(as_num_py_ge _ _ _ Hc).
  generalize (mps unit w). clear Hc. intros c.
  unfold first_match, wind_rules, between. cbn [find applies].
  destruct (Qle_bool 20 c); [fired Hf|].
  destruct (Qle_bool 10 c); [fired Hf|].
  fell_through.
Qed.

Lemma condition_alerts_run weather_id alerts c :
  as_num weather_id = Ok c →
  ∃ b, condition_alerts weather_id alerts = Ok (alerts ++ b)
    ∧ sig <$> b = first_match condition_rules c
    ∧ Forall (λ r, group_rank (type r) = 4%nat
                   ∧ description r ∈ condition_descriptions) b.
Proof.
  intros Hc. unfold condition_alerts.
  rewrite !(as_num_py_between _ _ _ _ Hc), (as_num_py_lt _ _ _ Hc),
    (as_num_py_in2 _ _ _ _ Hc).
  unfold first_match, condition_rules. cbn [find applies].
  destruct (between 200 c 300); [fires|].
  rewrite ?bind_Ok_l. cbv beta iota. rewrite ?bind_Ok_l. cbv beta.
  destruct (between 500 c 600 && negb (Qeq_bool c 500 || Qeq_bool c 501));
    [fires|].
  destruct (between 600 c 700); [fires|].
  destruct (between 700 c 800); [fires|].
  silent.
Qed.

(** A group returns when its number is compared and the value it shows
    converts to a float. *)
Lemma temperature_alerts_returns temp temp_c unit alerts c :
  as_num temp_c = Ok c →
  fits_double temp = true →
  ∃ l, temperature_alerts py_format temp temp_c unit alerts = Ok l.
Proof.
  intros Hc Hf%format_1f_fits. unfold temperature_alerts.
  rewrite !(as_num_py_ge _ _ _ Hc), !(as_num_py_le _ _ _ Hc), Hf.
  destruct (Qle_bool 35 c); [by eexists|].
  destruct (Qle_bool 30 c); [by eexists|].
  destruct (Qle_bool c (-10)); [by eexists|].
  destruct (Qle_bool c 0); by eexists.
Qed.

Lemma feels_like_alerts_returns feels_like feels_like_c unit alerts c :
  as_num feels_like_c = Ok c →
  fits_double feels_like = true →
  ∃ l, feels_like_alerts py_format feels_like feels_like_c unit alerts = Ok l.
Proof.
  intros Hc Hf%format_1f_fits. unfold feels_like_alerts.
  rewrite !(as_num_py_ge _ _ _ Hc), !(as_num_py_le _ _ _ Hc), Hf.
  destruct (Qle_bool 40 c); [by eexists|].
  destruct (Qle_bool c (-20)); by eexists.
Qed.

Lemma wind_alerts_returns wind_speed unit alerts :
  fits_double wind_speed = true →
  ∃ l, wind_alerts py_format wind_speed unit alerts = Ok l.
Proof.
  intros Hfit. destruct (fits_double_as_num _ Hfit) as (w & Hw & Hfl).
  apply format_1f_fits in Hfit as Hf. unfold wind_alerts.
  assert (∃ wind_mps c,
    (if metric unit then mret wind_speed else py_div_float wind_speed 2.237)
    = Ok wind_mps ∧ as_num wind_mps = Ok c) as (wind_mps & c & -> & Hc).
  { destruct (metric unit); [by exists wind_speed, w|].
    unfold py_div_float. rewrite Hfl. by eexists _, _. }
  rewrite bind_Ok_l. cbv beta.
  rewrite !(as_num_py_ge _ _ _ Hc), Hf.
  destruct (Qle_bool 20 c); [by eexists|].
  destruct (Qle_bool 10 c); by eexists.
Qed.

End Groups.

(** ** The whole pass *)

Section Pass.

Variable py_format : pyval → string → string.

(** Lines 76-81. *)
Lemma normalized_Ok unit temp feels_like temp_c feels_like_c :
  (if imperial unit then
     temp_c ← py_sub_mul_div temp 32 5 9;
     feels_like_c ← py_sub_mul_div feels_like 32 5 9;
     mret (temp_c, feels_like_c)
   else mret (temp, feels_like)) = Ok (temp_c, feels_like_c) →
  ∀ ct cf, as_num temp_c = Ok ct → as_num feels_like_c = Ok cf →
  ∃ t f, as_num temp = Ok t ∧ as_num feels_like = Ok f
    ∧ ct = celsius unit t ∧ cf = celsius unit f.
Proof.
  unfold celsius. destruct (imperial unit).
  - intros (tc & (t & Ht & ->)%py_sub_mul_div_Ok
            & (fc & (f & Hf & ->)%py_sub_mul_div_Ok & [= <- <-])%bind_Ok)%bind_Ok.
    intros ct cf [= <-] [= <-]. by exists t, f.
  - intros [= <- <-] ct cf Ht Hf. by exists ct, cf.
Qed.

Lemma normalized unit temp feels_like t f :
  fits_double temp = true → fits_double feels_like = true →
  as_num temp = Ok t → as_num feels_like = Ok f →
  ∃ temp_c feels_like_c,
    (if imperial unit then
       temp_c ← py_sub_mul_div temp 32 5 9;
       feels_like_c ← py_sub_mul_div feels_like 32 5 9;
       mret (temp_c, feels_like_c)
     else mret (temp, feels_like)) = Ok (temp_c, feels_like_c)
    ∧ as_num temp_c = Ok (celsius unit t)
    ∧ as_num feels_like_c = Ok (celsius unit f).
Proof.
  intros Ft Ff Ht Hf. unfold celsius. destruct (imperial unit).
  - rewrite (py_sub_mul_div_fits _ _ Ft Ht), (py_sub_mul_div_fits _ _ Ff Hf).
    by eexists _, _.
  - by exists temp, feels_like.
Qed.

(** A returned list is the one the table gives for the numbers read. *)
Lemma analyze_Ok_classify data unit l :
  analyze_extreme_conditions py_format data unit = Ok l →
  ∃ temp feels_like humidity wind_speed weather_id t f h w i,
    reads_as read_temp data temp t
    ∧ reads_as read_feels_like data feels_like f
    ∧ reads_as read_humidity data humidity h
    ∧ reads_as read_wind_speed data wind_speed w
    ∧ reads_as read_weather_id data weather_id i
    ∧ sig <$> l = classify unit t f h w i
    ∧ Forall (described py_format unit temp feels_like humidity wind_speed) l.
Proof.
  unfold analyze_extreme_conditions.
  intros (temp & Rt & (feels_like & Rf & (humidity & Rh & (wind_speed & Rw
    & (weather_id & Ri & ([temp_c feels_like_c] & Hn & (a1 & H1 & (a2 & H2
    & (a3 & H3 & (a4 & H4 & (a5 & H5 & [= <-])%bind_Ok)%bind_Ok)%bind_Ok)%bind_Ok)
      %bind_Ok)%bind_Ok)%bind_Ok)%bind_Ok)%bind_Ok)%bind_Ok)%bind_Ok.
  apply temperature_alerts_inv in H1 as (ct & b1 & Hct & -> & S1 & D1).
  apply feels_like_alerts_inv in H2 as (cf & b2 & Hcf & -> & S2 & D2).
  destruct (humidity_alerts_Ok _ _ _ _ H3) as [h Hh].
  match type of H3 with
  | humidity_alerts _ _ ?a = _ =>
      destruct (humidity_alerts_run py_format humidity a h Hh)
        as (b3 & E3 & S3 & D3)
  end.
  rewrite E3 in H3. injection H3 as <-.
  apply wind_alerts_inv in H4 as (w & b4 & Hw & -> & S4 & D4).
  destruct (condition_alerts_Ok _ _ _ H5) as [i Hi].
  match type of H5 with
  | condition_alerts _ ?a = _ =>
      destruct (condition_alerts_run weather_id a i Hi) as (b5 & E5 & S5 & D5)
  end.
  rewrite E5 in H5. injection H5 as <-.
  destruct (normalized_Ok _ _ _ _ _ Hn ct cf Hct Hcf) as (t & f & Ht & Hf & -> & ->).
  exists temp, feels_like, humidity, wind_speed, weather_id, t, f, h, w, i.
  split_and!; try done.
  - unfold classify. rewrite !fmap_app, S1, S2, S3, S4, S5. simpl.
    by rewrite <- ?(assoc_L (++)).
  - unfold described. rewrite !Forall_app. split_and!; try done;
      (eapply Forall_impl; [eassumption|]);
      intros r [Hty Hd]; rewrite Hty; exact Hd.
Qed.

Lemma analyze_Ok_reads data unit l :
  analyze_extreme_conditions py_format data unit = Ok l →
  ∃ temp feels_like humidity wind_speed weather_id t f h w i,
    reads_as read_temp data temp t
    ∧ reads_as read_feels_like data feels_like f
    ∧ reads_as read_humidity data humidity h
    ∧ reads_as read_wind_speed data wind_speed w
    ∧ reads_as read_weather_id data weather_id i.
Proof.
  intros (temp & feels_like & humidity & wind_speed & weather_id & t & f & h & w & i
          & Rt & Rf & Rh & Rw & Ri & _)%analyze_Ok_classify.
  by exists temp, feels_like, humidity, wind_speed, weather_id, t, f, h, w, i.
Qed.

(** The pass returns when the five readings are numbers and the three
    that are shown with one decimal convert to a float. *)
Lemma analyze_returns data unit temp feels_like humidity wind_speed weather_id
    t f h w i :
  reads_as read_temp data temp t →
  reads_as read_feels_like data feels_like f →
  reads_as read_humidity data humidity h →
  reads_as read_wind_speed data wind_speed w →
  reads_as read_weather_id data weather_id i →
  fits_double temp = true →
  fits_double feels_like = true →
  fits_double wind_speed = true →
  ∃ l, analyze_extreme_conditions py_format data unit = Ok l.
Proof.
  intros [Rt Ht] [Rf Hf] [Rh Hh] [Rw Hw] [Ri Hi] Ft Ff Fw.
  destruct (normalized unit _ _ _ _ Ft Ff Ht Hf)
    as (temp_c & feels_like_c & En & Htc & Hfc).
  unfold analyze_extreme_conditions. rewrite Rt, Rf, Rh, Rw, Ri. run.
  rewrite En. run.
  destruct (temperature_alerts_returns py_format temp temp_c unit [] _ Htc Ft)
    as (a1 & ->). run.
  destruct (feels_like_alerts_returns py_format feels_like feels_like_c unit a1
              _ Hfc Ff) as (a2 & ->). run.
  destruct (humidity_alerts_run py_format humidity a2 h Hh) as (b3 & -> & _). run.
  destruct (wind_alerts_returns py_format wind_speed unit (a2 ++ b3) Fw)
    as (a4 & ->). run.
  destruct (condition_alerts_run weather_id a4 i Hi) as (b5 & -> & _). run.
  by eexists.
Qed.

Lemma analyze_run data unit temp feels_like humidity wind_speed weather_id t f h w i :
  reads_as read_temp data temp t →
  reads_as read_feels_like data feels_like f →
  reads_as read_humidity data humidity h →
  reads_as read_wind_speed data wind_speed w →
  reads_as read_weather_id data weather_id i →
  fits_double temp = true →
  fits_double feels_like = true →
  fits_double wind_speed = true →
  ∃ l, analyze_extreme_conditions py_format data unit = Ok l
    ∧ sig <$> l = classify unit t f h w i
    ∧ Forall (described py_format unit temp feels_like humidity wind_speed) l.
Proof.
  intros Rt Rf Rh Rw Ri Ft Ff Fw.
  destruct (analyze_returns data unit _ _ _ _ _ _ _ _ _ _ Rt Rf Rh Rw Ri Ft Ff Fw)
    as [l Hl].
  exists l. split; [done|].
  destruct (analyze_Ok_classify data unit l Hl)
    as (temp' & feels_like' & humidity' & wind_speed' & weather_id'
        & t' & f' & h' & w' & i' & Rt' & Rf' & Rh' & Rw' & Ri' & Hsig & Hdesc).
  destruct Rt as [Rt Ht], Rf as [Rf Hf], Rh as [Rh Hh], Rw as [Rw Hw],
    Ri as [Ri Hi], Rt' as [Rt' Ht'], Rf' as [Rf' Hf'], Rh' as [Rh' Hh'],
    Rw' as [Rw' Hw'], Ri' as [Ri' Hi'].
  rewrite Rt in Rt'. injection Rt' as <-.
  rewrite Rf in Rf'. injection Rf' as <-.
  rewrite Rh in Rh'. injection Rh' as <-.
  rewrite Rw in Rw'. injection Rw' as <-.
  rewrite Ri in Ri'. injection Ri' as <-.
  rewrite Ht in Ht'. injection Ht' as <-.
  rewrite Hf in Hf'. injection Hf' as <-.
  rewrite Hh in Hh'. injection Hh' as <-.
  rewrite Hw in Hw'. injection Hw' as <-.
  rewrite Hi in Hi'. injection Hi' as <-.
  by split.
Qed.

End Pass.

Lemma observation_reads temp feels_like humidity speed id :
  reads_as read_temp (observation temp feels_like humidity speed id)
    (VFloat temp) temp
  ∧ reads_as read_feels_like (observation temp feels_like humidity speed id)
      (VFloat feels_like) feels_like
  ∧ reads_as read_humidity (observation temp feels_like humidity speed id)
      (VInt humidity) (inject_Z humidity)
  ∧ reads_as read_wind_speed (observation temp feels_like humidity speed id)
      (VFloat speed) speed
  ∧ reads_as read_weather_id (observation temp feels_like humidity speed id)
      (VInt id) (inject_Z id).
Proof. by split_and!. Qed.

(** ** Order and multiplicity in the table *)

Lemma rank_sig (l : list alert) : rank <$> l = sig_rank <$> (sig <$> l).
Proof. by rewrite <- list_fmap_compose. Qed.

Lemma first_match_cases rules c :
  first_match rules c = []
  ∨ ∃ r, r ∈ rules ∧ first_match rules c = [(category r, level r c, headline r)].
Proof.
  unfold first_match. destruct (find _ rules) as [r|] eqn:E; [right|by left].
  apply find_some in E as [Hin _]. exists r. by rewrite list_elem_of_In.
Qed.

Lemma first_match_length rules c : (length (first_match rules c) ≤ 1)%nat.
Proof. destruct (first_match_cases rules c) as [->|(r & _ & ->)]; simpl; lia. Qed.

Lemma first_match_rank rules c g :
  Forall (λ r, group_rank (category r) = g) rules →
  sig_rank <$> first_match rules c = [] ∨ sig_rank <$> first_match rules c = [g].
Proof.
  intros Hg. destruct (first_match_cases rules c) as [->|(r & Hr & ->)]; [by left|].
  right. rewrite Forall_forall in Hg. unfold sig_rank. simpl. by rewrite (Hg r Hr).
Qed.

Lemma filter_first_match_in (P : signature → Prop) `{!∀ s, Decision (P s)} rules c :
  Forall (λ r, ∀ q, P (category r, level r q, headline r)) rules →
  filter P (first_match rules c) = first_match rules c.
Proof.
  intros HP. destruct (first_match_cases rules c) as [->|(r & Hr & ->)]; [done|].
  rewrite Forall_forall in HP. rewrite filter_cons_True; [done|]. by apply HP.
Qed.

Lemma filter_first_match_out (P : signature → Prop) `{!∀ s, Decision (P s)} rules c :
  Forall (λ r, ∀ q, ¬ P (category r, level r q, headline r)) rules →
  filter P (first_match rules c) = [].
Proof.
  intros HP. destruct (first_match_cases rules c) as [->|(r & Hr & ->)]; [done|].
  rewrite Forall_forall in HP. rewrite filter_cons_False; [done|]. by apply HP.
Qed.

Lemma filter_sig_type (ty : string) (l : list alert) :
  sig <$> filter (λ r, type r = ty) l
  = filter (λ s : signature, s.1.1 = ty) (sig <$> l).
Proof.
  induction l as [|r l IH]; [done|]. rewrite fmap_cons, !filter_cons. simpl.
  destruct (decide (type r = ty)); by rewrite ?fmap_cons, IH.
Qed.

Lemma filter_sig_rank (g : nat) (l : list alert) :
  sig <$> filter (λ r, rank r = g) l
  = filter (λ s : signature, group_rank s.1.1 = g) (sig <$> l).
Proof.
  unfold rank. induction l as [|r l IH]; [done|].
  rewrite fmap_cons, !filter_cons. cbn [sig fst].
  destruct (decide (group_rank (type r) = g)); by rewrite ?fmap_cons, IH.
Qed.

(** The ranks of a pass, group by group. *)
Lemma classify_ranks unit t f h w i :
  ∃ m0 m1 m2 m3 m4 : bool,
    sig_rank <$> classify unit t f h w i
    = (if m0 then [0%nat] else []) ++ (if m1 then [1%nat] else [])
        ++ (if m2 then [2%nat] else []) ++ (if m3 then [3%nat] else [])
        ++ (if m4 then [4%nat] else []).
Proof.
  assert (∀ rules c g, Forall (λ r, group_rank (category r) = g) rules →
    ∃ m : bool, sig_rank <$> first_match rules c = if m then [g] else [])
    as Hone.
  { intros rules c g Hg.
    destruct (first_match_rank rules c g Hg) as [->| ->];
      [by exists false|by exists true]. }
  destruct (Hone temperature_rules (celsius unit t) 0%nat) as [m0 H0];
    [by repeat constructor|].
  destruct (Hone feels_like_rules (celsius unit f) 1%nat) as [m1 H1];
    [by repeat constructor|].
  destruct (Hone humidity_rules h 2%nat) as [m2 H2]; [by repeat constructor|].
  destruct (Hone wind_rules (mps unit w) 3%nat) as [m3 H3];
    [by repeat constructor|].
  destruct (Hone condition_rules i 4%nat) as [m4 H4]; [by repeat constructor|].
  exists m0, m1, m2, m3, m4. unfold classify.
  by rewrite !fmap_app, H0, H1, H2, H3, H4.
Qed.

Lemma classify_sorted unit t f h w i :
  StronglySorted lt (sig_rank <$> classify unit t f h w i).
Proof.
  destruct (classify_ranks unit t f h w i) as (m0 & m1 & m2 & m3 & m4 & ->).
  destruct m0, m1, m2, m3, m4; simpl; repeat constructor; lia.
Qed.




Lemma classify_temperature unit t f h w i :
  filter (λ s : signature, s.1.1 = "temperature") (classify unit t f h w i)
  = first_match temperature_rules (celsius unit t).
Proof.
  unfold classify. rewrite !filter_app.
  rewrite (filter_first_match_in (λ s : signature, s.1.1 = "temperature")
             temperature_rules)
    by (by repeat constructor).
  rewrite !(filter_first_match_out (λ s : signature, s.1.1 = "temperature"))
    by (by repeat constructor).
  by rewrite !app_nil_r.
Qed.

Lemma classify_condition unit t f h w i :
  filter (λ s : signature, group_rank s.1.1 = 4%nat) (classify unit t f h w i)
  = first_match condition_rules i.
Proof.
  unfold classify. rewrite !filter_app.
  rewrite (filter_first_match_in (λ s : signature, group_rank s.1.1 = 4%nat)
             condition_rules)
    by (by repeat constructor).
  by rewrite !(filter_first_match_out (λ s : signature, group_rank s.1.1 = 4%nat))
    by (by repeat constructor).
Qed.

Lemma classify_condition_type ty unit t f h w i :
  group_rank ty = 4%nat →
  filter (λ s : signature, s.1.1 = ty) (classify unit t f h w i)
  = filter (λ s : signature, s.1.1 = ty) (first_match condition_rules i).
Proof.
  intros Hty. unfold classify. rewrite !filter_app.
  by rewrite !(filter_first_match_out (λ s : signature, s.1.1 = ty))
    by (repeat constructor; simpl; intros _ <-; discriminate Hty).
Qed.

Lemma kind_sig (l : list alert) : kind <$> l = fst <$> (sig <$> l).
Proof. by rewrite <- list_fmap_compose. Qed.

(** The records of an observation, group by group. *)
Lemma observation_records py_format unit temp feels_like humidity speed id :
  ∃ l,
    analyze_extreme_conditions py_format
      (observation temp feels_like humidity speed id) unit = Ok l
    ∧ sig <$> l
      = classify unit temp feels_like (inject_Z humidity) speed (inject_Z id).
Proof.
  destruct (observation_reads temp feels_like humidity speed id)
    as (Rt & Rf & Rh & Rw & Ri).
  destruct (analyze_run py_format _ unit _ _ _ _ _ _ _ _ _ _ Rt Rf Rh Rw Ri
              eq_refl eq_refl eq_refl)
    as (l & Hl & Hsig & _).
  by exists l.
Qed.

(** * The properties of the specification *)

(** ** Totality and defaults *)

Lemma read_nested_float d outer inner :
  match d !! outer with
  | None => True
  | Some (VDict m) => absent_or_float m inner
  | Some _ => False
  end →
  ∃ v c,
    (e ← py_get (VDict d) outer (VDict ∅); py_get e inner (VInt 0)) = Ok v
    ∧ as_num v = Ok c ∧ fits_double v = true.
Proof.
  unfold absent_or_float. simpl. destruct (d !! outer) as [[]|]; simpl; try done.
  - destruct (_ !! inner) as [v|]; simpl.
    + intros Hv. destruct (fits_double_as_num v Hv) as (c & Hc & _).
      by exists v, c.
    + intros _. by eexists _, _.
  - intros _. rewrite lookup_empty. simpl. by eexists _, _.
Qed.

Lemma read_weather_id_numeric d :
  match d !! "weather" with
  | None => True
  | Some (VList (VDict m :: _)) => absent_or_numeric m "id"
  | Some _ => False
  end →
  ∃ v c, read_weather_id (VDict d) = Ok v ∧ as_num v = Ok c.
Proof.
  unfold read_weather_id, absent_or_numeric. simpl.
  destruct (d !! "weather") as [[| | | | |[|[] ?]|]|]; simpl; try done.
  - destruct (_ !! "id") as [v|]; simpl.
    + intros [c Hc]. by exists v, c.
    + intros _. by eexists _, _.
  - intros _. rewrite lookup_empty. simpl. by eexists _, _.
Qed.

Lemma read_nested_missing d outer inner k :
  missing d outer inner →
  (e ← py_get (VDict d) outer (VDict ∅); py_get e inner (VInt k)) = Ok (VInt k).
Proof.
  unfold missing. simpl. destruct (d !! outer) as [[]|]; simpl; try done.
  by intros ->.
Qed.

(** C1, as the code has it: on every dictionary whose entries ["main"],
    ["wind"] and ["weather"] are absent or well formed (dicts and a list that
    starts with a dict, numbers in the fields read, the temperatures, the
    humidity and the wind speed floats or ints within the doubles), for
    every unit,
    [analyze_extreme_conditions] returns a list and raises nothing; a missing
    numeric field is read as [0] and a missing condition code as [800]. *)
Theorem analyze_total_on_well_formed py_format (d : gmap string pyval) unit :
  well_formed d →
  (∃ l, analyze_extreme_conditions py_format (VDict d) unit = Ok l)
  ∧ (missing d "main" "temp" → read_temp (VDict d) = Ok (VInt 0))
  ∧ (missing d "main" "feels_like" → read_feels_like (VDict d) = Ok (VInt 0))
  ∧ (missing d "main" "humidity" → read_humidity (VDict d) = Ok (VInt 0))
  ∧ (missing d "wind" "speed" → read_wind_speed (VDict d) = Ok (VInt 0))
  ∧ (missing_id d → read_weather_id (VDict d) = Ok (VInt 800)).
Proof.
  intros (Hmain & Hwind & Hweather). split_and!.
  - destruct (read_nested_float d "main" "temp") as (temp & t & Rt & Ht & Ft).
    { destruct (d !! "main") as [[]|]; try done. by destruct Hmain as (? & ? & ?). }
    destruct (read_nested_float d "main" "feels_like") as (fl & f & Rf & Hf & Ff).
    { destruct (d !! "main") as [[]|]; try done. by destruct Hmain as (? & ? & ?). }
    destruct (read_nested_float d "main" "humidity") as (hum & h & Rh & Hh & _).
    { destruct (d !! "main") as [[]|]; try done. by destruct Hmain as (? & ? & ?). }
    destruct (read_nested_float d "wind" "speed" Hwind) as (ws & w & Rw & Hw & Fw).
    destruct (read_weather_id_numeric d Hweather) as (wid & i & Ri & Hi).
    by apply (analyze_returns py_format (VDict d) unit temp fl hum ws wid t f h w i).
  - apply read_nested_missing.
  - apply read_nested_missing.
  - apply read_nested_missing.
  - apply read_nested_missing.
  - unfold missing_id, read_weather_id. simpl.
    destruct (d !! "weather") as [[| | | | |[|[] ?]|]|]; simpl; try done.
    by intros ->.
Qed.

Lemma analyze_total_on_well_formed_witness :
  well_formed {[ "main" := VDict {[ "temp" := VFloat 31.5 ]};
                 "weather" := VList [VDict ∅] ]}
  ∧ ∃ l, analyze_extreme_conditions sample_format
           (VDict {[ "main" := VDict {[ "temp" := VFloat 31.5 ]};
                     "weather" := VList [VDict ∅] ]}) "imperial" = Ok l.
Proof.
  assert (well_formed {[ "main" := VDict {[ "temp" := VFloat 31.5 ]};
                         "weather" := VList [VDict ∅] ]}) as Hwf.
  { split_and!; vm_compute; eauto. }
  split; [exact Hwf|].
  exact (proj1 (analyze_total_on_well_formed sample_format _ "imperial" Hwf)).
Defined.

(** The bound on the integers is needed: an int beyond the doubles passes
    the comparison of line 84 and fails in the format of line 89. *)
Lemma huge_int_OverflowError py_format :
  analyze_extreme_conditions py_format
    (VDict {[ "main" := VDict {[ "temp" := VInt (10 ^ 400) ]} ]}) "metric"
  = Raise OverflowError.
Proof. by vm_compute. Qed.

(** C1 as stated fails: the defaults cover absent keys only.  A dictionary
    whose ["temp"] is null makes the comparison of line 84 raise [TypeError],
    and one whose ["weather"] entry is the empty list makes line 73 raise
    [IndexError]; in both cases no list is returned. *)
Lemma analyze_not_total :
  (¬ ∃ l, analyze_extreme_conditions sample_format
            (VDict {[ "main" := VDict {[ "temp" := VNone ]} ]}) "metric" = Ok l)
  ∧ (¬ ∃ l, analyze_extreme_conditions sample_format
              (VDict {[ "weather" := VList [] ]}) "metric" = Ok l).
Proof.
  split; intros [l Hl]; vm_compute in Hl; discriminate Hl.
Qed.

(** The exceptions do not depend on the formatter; that of line 73 does not
    depend on the unit either. *)
Lemma null_temp_TypeError py_format :
  analyze_extreme_conditions py_format
    (VDict {[ "main" := VDict {[ "temp" := VNone ]} ]}) "metric"
  = Raise TypeError.
Proof. reflexivity. Qed.

Lemma empty_weather_list_IndexError py_format unit :
  analyze_extreme_conditions py_format (VDict {[ "weather" := VList [] ]}) unit
  = Raise IndexError.
Proof. reflexivity. Qed.

Lemma null_main_AttributeError py_format unit :
  analyze_extreme_conditions py_format (VDict {[ "main" := VNone ]}) unit
  = Raise AttributeError.
Proof. reflexivity. Qed.

(** ** Concrete observations *)

(** C5: the observation with all measurements at normal values (metric,
    temp 20, feels-like 20, humidity 50, wind 2, condition code 800) yields
    the empty list. *)
Theorem normal_observation_no_alerts py_format :
  analyze_extreme_conditions py_format (observation 20 20 50 2 800) "metric"
  = Ok [].
Proof. reflexivity. Qed.

(** C10: on the empty dictionary, in metric units, the zero defaults fall
    inside alert bands: the result has exactly two records, the freezing
    temperature record (moderate) and the low humidity record (moderate). *)
Theorem empty_dictionary_two_alerts py_format :
  ∃ freezing dry,
    analyze_extreme_conditions py_format (VDict ∅) "metric" = Ok [freezing; dry]
    ∧ sig freezing = ("temperature", "moderate", "❄️ Freezing Temperature")
    ∧ description freezing = temperature_description py_format (VInt 0) "metric"
    ∧ sig dry = ("humidity", "moderate", "🏜️ Low Humidity")
    ∧ description dry = humidity_description py_format (VInt 0).
Proof. eexists _, _. split; [reflexivity|]. by split_and!. Qed.

(** C6: a metric observation with temp 36, humidity 95, wind 25 and
    condition code 202, feels-like absent, yields exactly four records: one
    of each of the groups temperature, humidity, wind and storm, with
    severities high, moderate, high and high. *)
Theorem independent_groups_co_fire py_format :
  ∃ l,
    analyze_extreme_conditions py_format
      (VDict {[
         "main" := VDict {[ "temp" := VFloat 36; "humidity" := VInt 95 ]};
         "wind" := VDict {[ "speed" := VFloat 25 ]};
         "weather" := VList [VDict {[ "id" := VInt 202 ]}] ]}) "metric" = Ok l
    ∧ kind <$> l = [("temperature", "high"); ("humidity", "moderate");
                    ("wind", "high"); ("storm", "high")].
Proof. eexists. split; reflexivity. Qed.

(** The temperature records of an observation are the first matching row of
    the temperature table, whatever the other fields are. *)
Lemma temperature_records py_format unit temp feels_like humidity speed id :
  ∃ l,
    analyze_extreme_conditions py_format
      (observation temp feels_like humidity speed id) unit = Ok l
    ∧ kind <$> filter (λ r, type r = "temperature") l
      = fst <$> first_match temperature_rules (celsius unit temp).
Proof.
  destruct (observation_records py_format unit temp feels_like humidity speed id)
    as (l & Hl & Hsig).
  exists l. split; [done|].
  by rewrite kind_sig, filter_sig_type, Hsig, classify_temperature.
Qed.

(** C4: in metric units, whatever the other fields are, temp 35.0 yields
    exactly one temperature record, of severity high; temp 34.9 and temp
    30.0 yield exactly one, of severity moderate; temp 29.9 yields none. *)
Theorem temperature_boundaries py_format feels_like humidity speed id :
  (∃ l, analyze_extreme_conditions py_format
          (observation 35.0 feels_like humidity speed id) "metric" = Ok l
        ∧ kind <$> filter (λ r, type r = "temperature") l
          = [("temperature", "high")])
  ∧ (∃ l, analyze_extreme_conditions py_format
            (observation 34.9 feels_like humidity speed id) "metric" = Ok l
          ∧ kind <$> filter (λ r, type r = "temperature") l
            = [("temperature", "moderate")])
  ∧ (∃ l, analyze_extreme_conditions py_format
            (observation 30.0 feels_like humidity speed id) "metric" = Ok l
          ∧ kind <$> filter (λ r, type r = "temperature") l
            = [("temperature", "moderate")])
  ∧ (∃ l, analyze_extreme_conditions py_format
            (observation 29.9 feels_like humidity speed id) "metric" = Ok l
          ∧ filter (λ r, type r = "temperature") l = []).
Proof.
  split_and!.
  - apply (temperature_records py_format "metric" 35.0).
  - apply (temperature_records py_format "metric" 34.9).
  - apply (temperature_records py_format "metric" 30.0).
  - destruct (temperature_records py_format "metric" 29.9 feels_like humidity speed id)
      as (l & Hl & Hk).
    exists l. split; [done|]. by apply fmap_nil_inv in Hk.
Qed.

(** With the other fields at the normal values the temperature record is
    the whole result. *)
Example normal_temperature_boundaries py_format :
  kinds (analyze_extreme_conditions py_format (observation 35.0 20 50 2 800) "metric")
    = Ok [("temperature", "high")]
  ∧ kinds (analyze_extreme_conditions py_format (observation 34.9 20 50 2 800) "metric")
    = Ok [("temperature", "moderate")]
  ∧ kinds (analyze_extreme_conditions py_format (observation 30.0 20 50 2 800) "metric")
    = Ok [("temperature", "moderate")]
  ∧ kinds (analyze_extreme_conditions py_format (observation 29.9 20 50 2 800) "metric")
    = Ok [].
Proof. by split_and!. Qed.

(** ** The condition group *)

(** The records of one condition category in an observation. *)
Lemma condition_type_records py_format ty unit temp feels_like humidity speed id :
  group_rank ty = 4%nat →
  ∃ l,
    analyze_extreme_conditions py_format
      (observation temp feels_like humidity speed id) unit = Ok l
    ∧ kind <$> filter (λ r, type r = ty) l
      = fst <$> filter (λ s : signature, s.1.1 = ty)
                  (first_match condition_rules (inject_Z id)).
Proof.
  intros Hty.
  destruct (observation_records py_format unit temp feels_like humidity speed id)
    as (l & Hl & Hsig).
  exists l. split; [done|].
  by rewrite kind_sig, filter_sig_type, Hsig, classify_condition_type.
Qed.

(** C3: whatever the unit and the other fields are, condition code 501
    yields no rain record, 502 yields exactly one rain record, of severity
    moderate, 602 yields exactly one snow record, of severity high, and 601
    one of severity moderate.  On every input the condition group (storm,
    rain, snow, fog) contributes at most one record: that of the first band,
    in the order thunderstorm, rain, snow, fog, that holds the code. *)
Theorem condition_code_bands py_format unit temp feels_like humidity speed :
  (∃ l, analyze_extreme_conditions py_format
          (observation temp feels_like humidity speed 501) unit = Ok l
        ∧ filter (λ r, type r = "rain") l = [])
  ∧ (∃ l, analyze_extreme_conditions py_format
            (observation temp feels_like humidity speed 502) unit = Ok l
          ∧ kind <$> filter (λ r, type r = "rain") l = [("rain", "moderate")])
  ∧ (∃ l, analyze_extreme_conditions py_format
            (observation temp feels_like humidity speed 602) unit = Ok l
          ∧ kind <$> filter (λ r, type r = "snow") l = [("snow", "high")])
  ∧ (∃ l, analyze_extreme_conditions py_format
            (observation temp feels_like humidity speed 601) unit = Ok l
          ∧ kind <$> filter (λ r, type r = "snow") l = [("snow", "moderate")])
  ∧ (∀ data l,
       analyze_extreme_conditions py_format data unit = Ok l →
       (length (filter (λ r, rank r = 4%nat) l) ≤ 1)%nat
       ∧ ∃ weather_id code,
           reads_as read_weather_id data weather_id code
           ∧ sig <$> filter (λ r, rank r = 4%nat) l
             = first_match condition_rules code).
Proof.
  split_and!.
  - destruct (condition_type_records py_format "rain" unit temp feels_like
                humidity speed 501) as (l & Hl & Hk); [done|].
    exists l. split; [done|]. by apply fmap_nil_inv in Hk.
  - by apply (condition_type_records py_format "rain").
  - by apply (condition_type_records py_format "snow").
  - by apply (condition_type_records py_format "snow").
  - intros data l Hl.
    destruct (analyze_Ok_classify py_format data unit l Hl)
      as (tv & fv & hv & wv & iv & t & f & h & w & i & _ & _ & _ & _ & Ri & Hsig & _).
    assert (sig <$> filter (λ r, rank r = 4%nat) l = first_match condition_rules i)
      as Hcond by (by rewrite filter_sig_rank, Hsig, classify_condition).
    split; [|by exists iv, i].
    rewrite <- (length_fmap sig), Hcond. apply first_match_length.
Qed.

Lemma condition_code_bands_witness :
  ∃ l,
    analyze_extreme_conditions sample_format (observation 1 1 50 2 781) "metric"
      = Ok l
    ∧ (length (filter (λ r, rank r = 4%nat) l) ≤ 1)%nat
    ∧ ∃ weather_id code,
        reads_as read_weather_id (observation 1 1 50 2 781) weather_id code
        ∧ sig <$> filter (λ r, rank r = 4%nat) l
          = first_match condition_rules code.
Proof.
  eexists. split; [vm_compute; reflexivity|].
  apply (condition_code_bands sample_format "metric" 1 1 50 2).
  vm_compute. reflexivity.
Defined.

(** With the other fields at the normal values the condition record is the
    whole result. *)
Example normal_condition_code_bands py_format :
  kinds (analyze_extreme_conditions py_format (observation 20 20 50 2 501) "metric")
    = Ok []
  ∧ kinds (analyze_extreme_conditions py_format (observation 20 20 50 2 502) "metric")
    = Ok [("rain", "moderate")]
  ∧ kinds (analyze_extreme_conditions py_format (observation 20 20 50 2 602) "metric")
    = Ok [("snow", "high")]
  ∧ kinds (analyze_extreme_conditions py_format (observation 20 20 50 2 601) "metric")
    = Ok [("snow", "moderate")].
Proof. by split_and!. Qed.

(** ** Multiplicity and order *)



(** C8: on every input for which a list is returned, the records appear in
    the evaluation order of the groups (temperature, feels_like, humidity,
    wind, condition): the group numbers increase strictly along the list,
    whatever the severities are. *)
Theorem evaluation_order py_format data unit l :
  analyze_extreme_conditions py_format data unit = Ok l →
  StronglySorted lt (rank <$> l).
Proof.
  intros Hl.
  destruct (analyze_Ok_classify py_format data unit l Hl)
    as (tv & fv & hv & wv & iv & t & f & h & w & i & _ & _ & _ & _ & _ & Hsig & _).
  rewrite rank_sig, Hsig. apply classify_sorted.
Qed.

(** A moderate temperature record stays in front of a high wind record; the
    sort of [display_alerts] is what moves the high one first. *)
Lemma evaluation_order_witness :
  ∃ l,
    analyze_extreme_conditions sample_format (observation 32 20 50 25 800) "metric"
      = Ok l
    ∧ kind <$> l = [("temperature", "moderate"); ("wind", "high")]
    ∧ kind <$> display_alerts_sort l = [("wind", "high"); ("temperature", "moderate")]
    ∧ StronglySorted lt (rank <$> l).
Proof.
  eexists. split; [vm_compute; reflexivity|]. split; [reflexivity|].
  split; [reflexivity|].
  apply (evaluation_order sample_format (observation 32 20 50 25 800) "metric").
  vm_compute. reflexivity.
Defined.

(** ** Descriptions *)

Lemma bind_ext {A B} (m : res A) (f g : A → res B) :
  (∀ a, f a = g a) → m ≫= f = m ≫= g.
Proof. intros H. destruct m; simpl; [apply H|done]. Qed.

Section Formatters.

Variables fmt fmt' : pyval → string → string.

Lemma temperature_alerts_format temp temp_c unit alerts :
  fmt' temp ".1f" = fmt temp ".1f" →
  temperature_alerts fmt' temp temp_c unit alerts
  = temperature_alerts fmt temp temp_c unit alerts.
Proof. intros H. unfold temperature_alerts, format_1f. by rewrite H. Qed.

Lemma feels_like_alerts_format feels_like feels_like_c unit alerts :
  fmt' feels_like ".1f" = fmt feels_like ".1f" →
  feels_like_alerts fmt' feels_like feels_like_c unit alerts
  = feels_like_alerts fmt feels_like feels_like_c unit alerts.
Proof. intros H. unfold feels_like_alerts, format_1f. by rewrite H. Qed.

Lemma humidity_alerts_format humidity alerts :
  fmt' humidity "" = fmt humidity "" →
  humidity_alerts fmt' humidity alerts = humidity_alerts fmt humidity alerts.
Proof. intros H. unfold humidity_alerts. by rewrite H. Qed.

Lemma wind_alerts_format wind_speed unit alerts :
  fmt' wind_speed ".1f" = fmt wind_speed ".1f" →
  wind_alerts fmt' wind_speed unit alerts = wind_alerts fmt wind_speed unit alerts.
Proof. intros H. unfold wind_alerts, format_1f. by rewrite H. Qed.

(** The formatter is applied to the values read and to nothing else: two
    formatters that agree on them give the same result. *)
Lemma analyze_format data unit temp feels_like humidity wind_speed :
  read_temp data = Ok temp →
  read_feels_like data = Ok feels_like →
  read_humidity data = Ok humidity →
  read_wind_speed data = Ok wind_speed →
  fmt' temp ".1f" = fmt temp ".1f" →
  fmt' feels_like ".1f" = fmt feels_like ".1f" →
  fmt' humidity "" = fmt humidity "" →
  fmt' wind_speed ".1f" = fmt wind_speed ".1f" →
  analyze_extreme_conditions fmt' data unit
  = analyze_extreme_conditions fmt data unit.
Proof.
  intros Rt Rf Rh Rw Ht Hf Hh Hw. unfold analyze_extreme_conditions.
  rewrite Rt, Rf, Rh, Rw. run.
  apply bind_ext. intros weather_id. apply bind_ext. intros [temp_c feels_like_c].
  rewrite (temperature_alerts_format _ _ _ _ Ht). apply bind_ext. intros a1.
  rewrite (feels_like_alerts_format _ _ _ _ Hf). apply bind_ext. intros a2.
  rewrite (humidity_alerts_format _ _ Hh). apply bind_ext. intros a3.
  by rewrite (wind_alerts_format _ _ _ Hw).
Qed.

End Formatters.

(** C9: on every input for which a list is returned, the description of
    every temperature, feels_like and wind record is the value read from the
    input, formatted as it is, followed by the symbol of the caller's unit
    (°F and mph when the unit is imperial, °C and m/s otherwise).  The
    formatter is applied to the values read and to nothing else, so no field
    of a record holds the value normalized for the thresholds: a formatter
    that agrees on the four values read gives the same list. *)
Theorem description_echoes_input py_format data unit l :
  analyze_extreme_conditions py_format data unit = Ok l →
  ∃ temp feels_like humidity wind_speed,
    read_temp data = Ok temp
    ∧ read_feels_like data = Ok feels_like
    ∧ read_humidity data = Ok humidity
    ∧ read_wind_speed data = Ok wind_speed
    ∧ Forall (λ r,
        (type r = "temperature" →
         description r
         = "Temperature is " +:+ py_format temp ".1f" +:+ "°"
             +:+ (if String.eqb unit "imperial" then "F" else "C"))
        ∧ (type r = "feels_like" →
           description r
           = "Feels like " +:+ py_format feels_like ".1f" +:+ "°"
               +:+ (if String.eqb unit "imperial" then "F" else "C"))
        ∧ (type r = "wind" →
           description r
           = "Wind speed is " +:+ py_format wind_speed ".1f" +:+ " "
               +:+ (if String.eqb unit "imperial" then "mph" else "m/s"))) l
    ∧ ∀ other_format : pyval → string → string,
        other_format temp ".1f" = py_format temp ".1f" →
        other_format feels_like ".1f" = py_format feels_like ".1f" →
        other_format humidity "" = py_format humidity "" →
        other_format wind_speed ".1f" = py_format wind_speed ".1f" →
        analyze_extreme_conditions other_format data unit = Ok l.
Proof.
  intros Hl.
  destruct (analyze_Ok_classify py_format data unit l Hl)
    as (temp & feels_like & humidity & wind_speed & weather_id & t & f & h & w & i
        & [Rt _] & [Rf _] & [Rh _] & [Rw _] & _ & _ & Hdesc).
  exists temp, feels_like, humidity, wind_speed. split_and!; try done.
  - eapply Forall_impl; [exact Hdesc|]. intros r Hr. unfold described in Hr.
    split_and!; intros Hty; rewrite Hty in Hr; exact Hr.
  - intros other_format Ht Hf Hh Hw. rewrite <- Hl.
    by apply (analyze_format py_format other_format data unit
                temp feels_like humidity wind_speed).
Qed.

(** In imperial units the thresholds see 35 °C, 40 °C and 20 m/s; the
    records show 95.0°F, 104.0°F and 44.7 mph. *)
Lemma description_echoes_input_witness :
  ∃ l,
    analyze_extreme_conditions sample_format
      (observation 95 104 50 44.74 800) "imperial" = Ok l
    ∧ description <$> l
      = ["Temperature is 95.0°F"; "Feels like 104.0°F"; "Wind speed is 44.7 mph"]
    ∧ ∀ other_format : pyval → string → string,
        other_format (VFloat 95) ".1f" = sample_format (VFloat 95) ".1f" →
        other_format (VFloat 104) ".1f" = sample_format (VFloat 104) ".1f" →
        other_format (VInt 50) "" = sample_format (VInt 50) "" →
        other_format (VFloat 44.74) ".1f" = sample_format (VFloat 44.74) ".1f" →
        analyze_extreme_conditions other_format
          (observation 95 104 50 44.74 800) "imperial" = Ok l.
Proof.
  eexists. split; [vm_compute; reflexivity|]. split; [reflexivity|].
  destruct (description_echoes_input sample_format
              (observation 95 104 50 44.74 800) "imperial" _ eq_refl)
    as (temp & feels_like & humidity & wind_speed & Rt & Rf & Rh & Rw & _ & Hother).
  injection Rt as <-. injection Rf as <-. injection Rh as <-. injection Rw as <-.
  exact Hother.
Defined.

(** ** Unit equivalence *)

(** The rows look at a measurement only through comparisons, so equal
    rationals fire the same row. *)
Lemma first_match_temperature_Qeq c c' :
  c == c' → first_match temperature_rules c = first_match temperature_rules c'.
Proof.
  intros H. unfold first_match, temperature_rules, between. cbn [find applies].
  assert (∀ k, Qle_bool k c = Qle_bool k c') as Hge by (intros k; by rewrite H).
  assert (∀ k, Qle_bool c k = Qle_bool c' k) as Hle by (intros k; by rewrite H).
  rewrite !Hge, !Hle.
  repeat (match goal with
          | |- context [Qle_bool ?a ?b] => destruct (Qle_bool a b)
          end; cbv beta iota); done.
Qed.

Lemma first_match_feels_like_Qeq c c' :
  c == c' → first_match feels_like_rules c = first_match feels_like_rules c'.
Proof.
  intros H. unfold first_match, feels_like_rules. cbn [find applies].
  assert (∀ k, Qle_bool k c = Qle_bool k c') as Hge by (intros k; by rewrite H).
  assert (∀ k, Qle_bool c k = Qle_bool c' k) as Hle by (intros k; by rewrite H).
  rewrite !Hge, !Hle.
  repeat (match goal with
          | |- context [Qle_bool ?a ?b] => destruct (Qle_bool a b)
          end; cbv beta iota); done.
Qed.

Lemma first_match_wind_Qeq c c' :
  c == c' → first_match wind_rules c = first_match wind_rules c'.
Proof.
  intros H. unfold first_match, wind_rules, between. cbn [find applies].
  assert (∀ k, Qle_bool k c = Qle_bool k c') as Hge by (intros k; by rewrite H).
  rewrite !Hge.
  repeat (match goal with
          | |- context [Qle_bool ?a ?b] => destruct (Qle_bool a b)
          end; cbv beta iota); done.
Qed.

(** C2: a metric observation and an imperial observation whose
    temperatures and wind speed convert to the metric ones, by
    [(value - 32) * 5 / 9] and [value / 2.237], and whose humidity and
    condition code are the same, yield the same categories and severities,
    in the same order.  The observation of the specification is the instance
    temp 35 and wind 20 against temp 95 and wind 44.74. *)
Theorem unit_equivalence py_format tA fA wA tB fB wB humidity id :
  (tB - 32) * 5 / 9 == tA →
  (fB - 32) * 5 / 9 == fA →
  wB / 2.237 == wA →
  ∃ lA lB,
    analyze_extreme_conditions py_format (observation tA fA humidity wA id) "metric"
      = Ok lA
    ∧ analyze_extreme_conditions py_format (observation tB fB humidity wB id) "imperial"
      = Ok lB
    ∧ kind <$> lA = kind <$> lB.
Proof.
  intros Ht Hf Hw.
  destruct (observation_records py_format "metric" tA fA humidity wA id)
    as (lA & HA & SA).
  destruct (observation_records py_format "imperial" tB fB humidity wB id)
    as (lB & HB & SB).
  exists lA, lB. split_and!; [done..|].
  rewrite !kind_sig, SA, SB. f_equal. unfold classify.
  change (celsius "metric" tA) with tA.
  change (celsius "metric" fA) with fA.
  change (mps "metric" wA) with wA.
  change (celsius "imperial" tB) with ((tB - 32) * 5 / 9).
  change (celsius "imperial" fB) with ((fB - 32) * 5 / 9).
  change (mps "imperial" wB) with (wB / 2.237).
  by rewrite (first_match_temperature_Qeq _ _ Ht),
    (first_match_feels_like_Qeq _ _ Hf), (first_match_wind_Qeq _ _ Hw).
Qed.

Lemma unit_equivalence_witness :
  (95 - 32) * 5 / 9 == 35 ∧ (68 - 32) * 5 / 9 == 20 ∧ 44.74 / 2.237 == 20
  ∧ ∃ lA lB,
      analyze_extreme_conditions sample_format (observation 35 20 50 20 800) "metric"
        = Ok lA
      ∧ analyze_extreme_conditions sample_format
          (observation 95 68 50 44.74 800) "imperial" = Ok lB
      ∧ kind <$> lA = kind <$> lB.
Proof.
  split_and!; [reflexivity..|].
  apply (unit_equivalence sample_format 35 20 20 95 68 44.74 50 800); reflexivity.
Defined.

(** The same with only the temperature and the wind speed present, as the
    specification lists them: both sides add the low humidity record of the
    default humidity 0. *)
Example sparse_unit_equivalence py_format :
  kinds (analyze_extreme_conditions py_format
           (VDict {[ "main" := VDict {[ "temp" := VInt 35 ]};
                     "wind" := VDict {[ "speed" := VInt 20 ]} ]}) "metric")
    = Ok [("temperature", "high"); ("humidity", "moderate"); ("wind", "high")]
  ∧ kinds (analyze_extreme_conditions py_format
             (VDict {[ "main" := VDict {[ "temp" := VInt 95 ]};
                       "wind" := VDict {[ "speed" := VFloat 44.74 ]} ]}) "imperial")
    = Ok [("temperature", "high"); ("humidity", "moderate"); ("wind", "high")].
Proof. by split_and!. Qed.

(** The wind speed rounded to 44.7 mph is 19.98 m/s, under the threshold of
    the high wind warning: the equivalence needs the exact 44.74. *)
Example rounded_wind_is_moderate py_format :
  kinds (analyze_extreme_conditions py_format
           (observation 95 68 50 44.7 800) "imperial")
  = Ok [("temperature", "high"); ("wind", "moderate")].
Proof. reflexivity. Qed.

(** * Further properties of the classifier *)

(** ** When a list is returned *)

(** A reading that is not a number is never skipped: when one of the five
    values read is [None], a string, a list or a dict, the call raises and
    no list is returned, for every unit. *)
Theorem non_number_never_returns py_format data unit v :
  read_temp data = Ok v ∨ read_feels_like data = Ok v
  ∨ read_humidity data = Ok v ∨ read_wind_speed data = Ok v
  ∨ read_weather_id data = Ok v →
  as_num v = Raise TypeError →
  ∀ l, analyze_extreme_conditions py_format data unit ≠ Ok l.
Proof.
  intros Hread Hv l Hl.
  destruct (analyze_Ok_reads py_format data unit l Hl)
    as (temp & feels_like & humidity & wind_speed & weather_id & t & f & h & w & i
        & [Rt Ht] & [Rf Hf] & [Rh Hh] & [Rw Hw] & [Ri Hi]).
  destruct Hread as [R|[R|[R|[R|R]]]].
  - rewrite Rt in R. injection R as <-. congruence.
  - rewrite Rf in R. injection R as <-. congruence.
  - rewrite Rh in R. injection R as <-. congruence.
  - rewrite Rw in R. injection R as <-. congruence.
  - rewrite Ri in R. injection R as <-. congruence.
Qed.

Lemma non_number_never_returns_witness :
  ¬ ∃ l,
      analyze_extreme_conditions sample_format
        (VDict {[ "main" :=
                    VDict {[ "temp" := VFloat 20; "humidity" := VStr "high" ]} ]})
        "metric" = Ok l.
Proof.
  intros [l Hl].
  apply (non_number_never_returns sample_format
           (VDict {[ "main" :=
                       VDict {[ "temp" := VFloat 20; "humidity" := VStr "high" ]} ]})
           "metric" (VStr "high")) with l; [|reflexivity|exact Hl].
  right. right. left. reflexivity.
Defined.

Lemma read_nested_Ok d outer inner k :
  absent_or_dict d outer →
  ∃ v, (e ← py_get (VDict d) outer (VDict ∅); py_get e inner (VInt k)) = Ok v.
Proof.
  unfold absent_or_dict. simpl.
  destruct (d !! outer) as [[]|]; simpl; try done; eauto.
Qed.

(** A ["weather"] entry that is the empty list raises [IndexError] at line
    73, for every unit, whatever else the dictionary holds, as long as
    ["main"] and ["wind"] are absent or dicts (lines 69-72 then succeed). *)
Theorem empty_weather_raises_IndexError py_format (d : gmap string pyval) unit :
  absent_or_dict d "main" →
  absent_or_dict d "wind" →
  d !! "weather" = Some (VList []) →
  analyze_extreme_conditions py_format (VDict d) unit = Raise IndexError.
Proof.
  intros Hmain Hwind Hweather.
  destruct (read_nested_Ok d "main" "temp" 0 Hmain) as [temp Rt].
  destruct (read_nested_Ok d "main" "feels_like" 0 Hmain) as [feels_like Rf].
  destruct (read_nested_Ok d "main" "humidity" 0 Hmain) as [humidity Rh].
  destruct (read_nested_Ok d "wind" "speed" 0 Hwind) as [wind_speed Rw].
  assert (read_weather_id (VDict d) = Raise IndexError) as Ri.
  { unfold read_weather_id. simpl. by rewrite Hweather. }
  unfold analyze_extreme_conditions, read_temp, read_feels_like, read_humidity,
    read_wind_speed.
  rewrite Rt, Rf, Rh, Rw. run. by rewrite Ri.
Qed.

Lemma empty_weather_raises_IndexError_witness :
  analyze_extreme_conditions sample_format
    (VDict {[ "main" := VDict {[ "temp" := VFloat 40 ]};
              "name" := VStr "Manila";
              "weather" := VList [] ]}) "metric"
  = Raise IndexError.
Proof.
  apply (empty_weather_raises_IndexError sample_format); vm_compute; done.
Defined.

(** ** Severities *)

Lemma first_match_levels rules c :
  Forall (λ r, ∀ q, level r q = "high" ∨ level r q = "moderate") rules →
  Forall (λ s : signature, s.1.2 = "high" ∨ s.1.2 = "moderate")
    (first_match rules c).
Proof.
  intros H. destruct (first_match_cases rules c) as [->|(r & Hr & ->)]; [done|].
  rewrite Forall_forall in H. apply Forall_singleton. simpl. by apply H.
Qed.

Lemma classify_levels unit t f h w i :
  Forall (λ s : signature, s.1.2 = "high" ∨ s.1.2 = "moderate")
    (classify unit t f h w i).
Proof.
  unfold classify. rewrite !Forall_app.
  split_and!; apply first_match_levels;
    repeat first [apply Forall_nil_2 | apply Forall_cons_2];
    simpl; intros q; try destruct (negb (Qle_bool 602 q)); eauto.
Qed.

(** Every record of a returned list has severity "high" or "moderate", so
    the sort key of [display_alerts] is 0 or 1 and never the fallback 2. *)
Theorem severity_high_or_moderate py_format data unit l :
  analyze_extreme_conditions py_format data unit = Ok l →
  Forall (λ r, (severity r = "high" ∨ severity r = "moderate")
               ∧ (severity_key r < 2)%nat) l.
Proof.
  intros Hl.
  destruct (analyze_Ok_classify py_format data unit l Hl)
    as (tv & fv & hv & wv & iv & t & f & h & w & i & _ & _ & _ & _ & _ & Hsig & _).
  pose proof (classify_levels unit t f h w i) as Hlev.
  rewrite <- Hsig, Forall_fmap in Hlev.
  eapply Forall_impl; [exact Hlev|]. simpl. intros r Hr. split; [exact Hr|].
  unfold severity_key. destruct Hr as [-> | ->]; vm_compute; lia.
Qed.

Lemma severity_high_or_moderate_witness :
  ∃ l,
    analyze_extreme_conditions sample_format (observation 36 41 95 12 601) "metric"
      = Ok l
    ∧ severity <$> l = ["high"; "high"; "moderate"; "moderate"; "moderate"]
    ∧ Forall (λ r, (severity r = "high" ∨ severity r = "moderate")
                   ∧ (severity_key r < 2)%nat) l.
Proof.
  eexists. split; [vm_compute; reflexivity|]. split; [reflexivity|].
  apply (severity_high_or_moderate sample_format
           (observation 36 41 95 12 601) "metric").
  vm_compute. reflexivity.
Defined.

(** ** The thresholds in Fahrenheit and miles per hour *)

Lemma Qle_bool_ext a b c d : (a <= b ↔ c <= d) → Qle_bool a b = Qle_bool c d.
Proof.
  intros H. destruct (Qle_bool c d) eqn:E.
  - apply Qle_bool_iff, H, Qle_bool_iff, E.
  - apply not_true_iff_false. intros E'%Qle_bool_iff%H%Qle_bool_iff. congruence.
Qed.

Ltac split_comparisons :=
  repeat (match goal with
          | |- context [Qle_bool ?a ?b] => destruct (Qle_bool a b)
          end; cbv beta iota);
  done.

Lemma first_match_temperature_fahrenheit t :
  first_match temperature_rules ((t - 32) * 5 / 9)
  = first_match temperature_rules_fahrenheit t.
Proof.
  unfold first_match, temperature_rules, temperature_rules_fahrenheit, between.
  cbn [find applies].
  rewrite (Qle_bool_ext 35 ((t - 32) * 5 / 9) 95 t),
    (Qle_bool_ext 30 ((t - 32) * 5 / 9) 86 t),
    (Qle_bool_ext ((t - 32) * 5 / 9) (-10) t 14),
    (Qle_bool_ext ((t - 32) * 5 / 9) 0 t 32);
    [split_comparisons|..];
    unfold Qdiv; change (/ 9) with (1 # 9); split; intros; lra.
Qed.

Lemma first_match_wind_mph w :
  first_match wind_rules (w / 2.237) = first_match wind_rules_mph w.
Proof.
  unfold first_match, wind_rules, wind_rules_mph, between.
  cbn [find applies].
  rewrite (Qle_bool_ext 20 (w / 2.237) 44.74 w),
    (Qle_bool_ext 10 (w / 2.237) 22.37 w);
    [split_comparisons|..];
    unfold Qdiv; change (/ 2.237) with (1000 # 2237); split; intros; lra.
Qed.

Lemma classify_wind unit t f h w i :
  filter (λ s : signature, s.1.1 = "wind") (classify unit t f h w i)
  = first_match wind_rules (mps unit w).
Proof.
  unfold classify. rewrite !filter_app.
  rewrite (filter_first_match_in (λ s : signature, s.1.1 = "wind") wind_rules)
    by (by repeat constructor).
  rewrite !(filter_first_match_out (λ s : signature, s.1.1 = "wind"))
    by (by repeat constructor).
  by rewrite !app_nil_r.
Qed.

(** Under every unit other than "metric" the wind speed is read in miles
    per hour: the wind group fires at 44.74 mph and above (high wind) and
    from 22.37 to under 44.74 mph (windy). *)
Theorem non_metric_wind_bands py_format unit temp feels_like humidity speed id :
  unit ≠ "metric" →
  ∃ l,
    analyze_extreme_conditions py_format
      (observation temp feels_like humidity speed id) unit = Ok l
    ∧ sig <$> filter (λ r, type r = "wind") l = first_match wind_rules_mph speed.
Proof.
  intros Hunit.
  destruct (observation_records py_format unit temp feels_like humidity speed id)
    as (l & Hl & Hsig).
  exists l. split; [done|].
  rewrite filter_sig_type, Hsig, classify_wind. unfold mps, metric.
  apply String.eqb_neq in Hunit. rewrite Hunit.
  apply first_match_wind_mph.
Qed.

Lemma non_metric_wind_bands_witness :
  ∃ l,
    analyze_extreme_conditions sample_format (observation 70 70 50 30 800) "imperial"
      = Ok l
    ∧ sig <$> filter (λ r, type r = "wind") l
      = [("wind", "moderate", "🌬️ Windy Conditions")].
Proof.
  apply (non_metric_wind_bands sample_format "imperial" 70 70 50 30 800).
  discriminate.
Defined.

(** ** The unit label *)

(** A unit that is neither "metric" nor "imperial" leaves the temperatures
    as they are and still divides the wind speed by 2.237: the categories,
    severities and headlines are those of the metric observation with the
    wind speed converted from miles per hour. *)
Theorem unknown_unit_converts_wind_only py_format unit temp feels_like humidity
    speed id :
  unit ≠ "metric" →
  unit ≠ "imperial" →
  ∃ l l',
    analyze_extreme_conditions py_format
      (observation temp feels_like humidity speed id) unit = Ok l
    ∧ analyze_extreme_conditions py_format
        (observation temp feels_like humidity (speed / 2.237) id) "metric" = Ok l'
    ∧ sig <$> l = sig <$> l'.
Proof.
  intros Hm%String.eqb_neq Hi%String.eqb_neq.
  destruct (observation_records py_format unit temp feels_like humidity speed id)
    as (l & Hl & Hsig).
  destruct (observation_records py_format "metric" temp feels_like humidity
              (speed / 2.237) id) as (l' & Hl' & Hsig').
  exists l, l'. split_and!; [done..|].
  rewrite Hsig, Hsig'. unfold classify, celsius, mps, imperial, metric.
  by rewrite Hm, Hi.
Qed.

Lemma unknown_unit_converts_wind_only_witness :
  ∃ l l',
    analyze_extreme_conditions sample_format (observation 36 20 50 30 800) "kelvin"
      = Ok l
    ∧ analyze_extreme_conditions sample_format
        (observation 36 20 50 (30 / 2.237) 800) "metric" = Ok l'
    ∧ sig <$> l = sig <$> l'.
Proof.
  apply (unknown_unit_converts_wind_only sample_format "kelvin" 36 20 50 30 800);
    discriminate.
Defined.

Lemma Qle_bool_true a b : a <= b → Qle_bool a b = true.
Proof. apply Qle_bool_iff. Qed.

Lemma Qle_bool_false a b : b < a → Qle_bool a b = false.
Proof.
  intros H. apply not_true_iff_false. intros E%Qle_bool_iff.
  by apply (Qlt_not_le b a).
Qed.

(** The unit says how the numbers of the dictionary are read, it converts
    nothing: the same observation with a temperature from 35 to under 86
    has the extreme heat record when analysed as metric and no temperature
    record when analysed as imperial. *)
Theorem same_data_other_unit py_format temp feels_like humidity speed id :
  35 <= temp →
  temp < 86 →
  ∃ l_metric l_imperial,
    analyze_extreme_conditions py_format
      (observation temp feels_like humidity speed id) "metric" = Ok l_metric
    ∧ analyze_extreme_conditions py_format
        (observation temp feels_like humidity speed id) "imperial" = Ok l_imperial
    ∧ sig <$> filter (λ r, type r = "temperature") l_metric
      = [("temperature", "high", "🌡️ Extreme Heat Warning")]
    ∧ filter (λ r, type r = "temperature") l_imperial = [].
Proof.
  intros Hlo Hhi.
  destruct (observation_records py_format "metric" temp feels_like humidity speed id)
    as (lm & Hlm & Sm).
  destruct (observation_records py_format "imperial" temp feels_like humidity speed id)
    as (li & Hli & Si).
  exists lm, li. split_and!; [done..| |].
  - rewrite filter_sig_type, Sm, classify_temperature.
    change (celsius "metric" temp) with temp.
    unfold first_match, temperature_rules. cbn [find applies].
    by rewrite (Qle_bool_true 35 temp Hlo).
  - apply (fmap_nil_inv sig).
    rewrite filter_sig_type, Si, classify_temperature.
    change (celsius "imperial" temp) with ((temp - 32) * 5 / 9).
    rewrite first_match_temperature_fahrenheit.
    unfold first_match, temperature_rules_fahrenheit, between. cbn [find applies].
    rewrite (Qle_bool_false 95 temp), (Qle_bool_false 86 temp),
      (Qle_bool_false temp 14), (Qle_bool_false temp 32); [done|lra..].
Qed.

Lemma same_data_other_unit_witness :
  35 <= 40 ∧ 40 < 86
  ∧ ∃ l_metric l_imperial,
      analyze_extreme_conditions sample_format (observation 40 40 50 2 800) "metric"
        = Ok l_metric
      ∧ analyze_extreme_conditions sample_format
          (observation 40 40 50 2 800) "imperial" = Ok l_imperial
      ∧ sig <$> filter (λ r, type r = "temperature") l_metric
        = [("temperature", "high", "🌡️ Extreme Heat Warning")]
      ∧ filter (λ r, type r = "temperature") l_imperial = [].
Proof.
  assert (35 <= 40) as Hlo by (vm_compute; discriminate).
  assert (40 < 86) as Hhi by reflexivity.
  split_and!; [exact Hlo|exact Hhi|].
  exact (same_data_other_unit sample_format 40 40 50 2 800 Hlo Hhi).
Defined.

(** * The alert panel *)

(** ** The severity sort *)

Lemma insert_by_key_front x l :
  Forall (λ y, severity_key x ≤ severity_key y)%nat l →
  insert_by_key x l = x :: l.
Proof.
  destruct l as [|y l]; [done|]. intros [Hy _]%Forall_cons. simpl.
  by apply Nat.leb_le in Hy as ->.
Qed.

Lemma insert_by_key_skip x l1 l2 :
  Forall (λ y, severity_key y < severity_key x)%nat l1 →
  insert_by_key x (l1 ++ l2) = l1 ++ insert_by_key x l2.
Proof.
  induction 1 as [|y l1 Hy _ IH]; [done|]. simpl.
  apply Nat.leb_gt in Hy as ->. by rewrite IH.
Qed.

Lemma severity_key_bound x : (severity_key x ≤ 2)%nat.
Proof.
  unfold severity_key, severity_order.
  destruct (decide (severity x = "high")) as [->|Hh]; [vm_compute; lia|].
  destruct (decide (severity x = "moderate")) as [->|Hm]; [vm_compute; lia|].
  rewrite lookup_insert_ne, lookup_singleton_ne by done. simpl. lia.
Qed.

(** The insertion sort on the three keys puts the records of key 0 first,
    then those of key 1, then those of key 2, each part in the order it
    had. *)
Lemma display_alerts_sort_buckets (alerts : list alert) :
  display_alerts_sort alerts
  = filter (λ a, severity_key a = 0%nat) alerts
      ++ filter (λ a, severity_key a = 1%nat) alerts
      ++ filter (λ a, severity_key a = 2%nat) alerts.
Proof.
  induction alerts as [|x l IH]; [done|].
  change (display_alerts_sort (x :: l)) with (insert_by_key x (display_alerts_sort l)).
  rewrite IH, !filter_cons. clear IH.
  pose proof (severity_key_bound x) as Hx.
  assert (∀ k, Forall (λ y, severity_key y = k)
                 (filter (λ a, severity_key a = k) l)) as Hk.
  { intros k. apply Forall_forall. by intros y [? _]%list_elem_of_filter. }
  destruct (decide (severity_key x = 0%nat)) as [E0|N0];
    [|destruct (decide (severity_key x = 1%nat)) as [E1|N1];
      [|destruct (decide (severity_key x = 2%nat)) as [E2|N2]; [|lia]]].
  - rewrite decide_False, decide_False by lia.
    apply insert_by_key_front. rewrite !Forall_app. split_and!;
      (eapply Forall_impl; [apply Hk|]); simpl; intros; lia.
  - rewrite decide_False by lia.
    rewrite insert_by_key_skip
      by (eapply Forall_impl; [apply Hk|]; simpl; intros; lia).
    f_equal. apply insert_by_key_front. rewrite !Forall_app. split_and!;
      (eapply Forall_impl; [apply Hk|]); simpl; intros; lia.
  - rewrite insert_by_key_skip
      by (eapply Forall_impl; [apply Hk|]; simpl; intros; lia).
    f_equal.
    rewrite insert_by_key_skip
      by (eapply Forall_impl; [apply Hk|]; simpl; intros; lia).
    f_equal. apply insert_by_key_front.
    eapply Forall_impl; [apply Hk|]; simpl; intros; lia.
Qed.

Lemma filter_key_filter_key (k j : nat) (l : list alert) :
  filter (λ a, severity_key a = k) (filter (λ a, severity_key a = j) l)
  = if decide (k = j) then filter (λ a, severity_key a = k) l else [].
Proof.
  induction l as [|x l IH]; [by destruct (decide (k = j))|].
  rewrite (filter_cons (λ a, severity_key a = j)).
  destruct (decide (severity_key x = j)) as [Hj|Hj].
  - rewrite !filter_cons, IH.
    destruct (decide (k = j)) as [->|Hkj].
    + by rewrite decide_True.
    + by rewrite decide_False by lia.
  - rewrite IH. destruct (decide (k = j)) as [->|Hkj]; [|done].
    by rewrite filter_cons, decide_False.
Qed.

Lemma insert_by_key_Permutation x l : insert_by_key x l ≡ₚ x :: l.
Proof.
  induction l as [|y l IH]; [done|]. simpl.
  destruct (severity_key x <=? severity_key y)%nat; [done|].
  by rewrite IH, Permutation_swap.
Qed.

Lemma same_key_sorted (k : nat) (l : list alert) :
  Forall (λ a, severity_key a = k) l →
  StronglySorted (λ a b, severity_key a ≤ severity_key b)%nat l.
Proof.
  induction 1 as [|x l Hx Hl IH]; constructor; [done|].
  eapply Forall_impl; [exact Hl|]. simpl. intros; lia.
Qed.

Lemma filter_key_keys (k : nat) (l : list alert) :
  Forall (λ a, severity_key a = k) (filter (λ a, severity_key a = k) l).
Proof. apply Forall_forall. by intros y [? _]%list_elem_of_filter. Qed.

(** The sort of [display_alerts] loses and adds no record, orders the
    records by the key (high, then moderate, then anything else) and is
    stable: the records of one key keep the order they had. *)
Theorem display_alerts_sort_stable (alerts : list alert) :
  display_alerts_sort alerts ≡ₚ alerts
  ∧ StronglySorted (λ a b, severity_key a ≤ severity_key b)%nat
      (display_alerts_sort alerts)
  ∧ ∀ k, filter (λ a, severity_key a = k) (display_alerts_sort alerts)
         = filter (λ a, severity_key a = k) alerts.
Proof.
  split_and!.
  - induction alerts as [|x l IH]; [done|].
    change (display_alerts_sort (x :: l))
      with (insert_by_key x (display_alerts_sort l)).
    by rewrite insert_by_key_Permutation, IH.
  - rewrite display_alerts_sort_buckets.
    pose proof (filter_key_keys 0 alerts) as H0.
    pose proof (filter_key_keys 1 alerts) as H1.
    pose proof (filter_key_keys 2 alerts) as H2.
    rewrite Forall_forall in H0, H1, H2.
    apply StronglySorted_app_2; [|by eapply same_key_sorted, filter_key_keys|].
    { intros a b Ha [Hb|Hb]%elem_of_app.
      - rewrite (H0 a Ha), (H1 b Hb). lia.
      - rewrite (H0 a Ha), (H2 b Hb). lia. }
    apply StronglySorted_app_2; [|by eapply same_key_sorted, filter_key_keys..].
    intros a b Ha Hb. rewrite (H1 a Ha), (H2 b Hb). lia.
  - intros k. rewrite display_alerts_sort_buckets, !filter_app.
    rewrite !filter_key_filter_key.
    destruct (decide (k = 0%nat)) as [->|]; [by rewrite app_nil_r|].
    destruct (decide (k = 1%nat)) as [->|]; [by rewrite app_nil_r|].
    destruct (decide (k = 2%nat)) as [->|]; [done|].
    symmetry. apply (fmap_nil_inv id). rewrite list_fmap_id.
    induction alerts as [|x l IH]; [done|].
    rewrite filter_cons_False; [done|].
    pose proof (severity_key_bound x). lia.
Qed.

Lemma severity_key_high a : severity_key a = 0%nat ↔ severity a = "high".
Proof.
  unfold severity_key, severity_order. split.
  - destruct (decide (severity a = "high")) as [|Hh]; [done|].
    destruct (decide (severity a = "moderate")) as [->|Hm]; [by vm_compute|].
    by rewrite lookup_insert_ne, lookup_singleton_ne.
  - by intros ->.
Qed.

Lemma severity_key_moderate a : severity_key a = 1%nat ↔ severity a = "moderate".
Proof.
  unfold severity_key, severity_order. split.
  - destruct (decide (severity a = "high")) as [->|Hh]; [by vm_compute|].
    destruct (decide (severity a = "moderate")) as [|Hm]; [done|].
    by rewrite lookup_insert_ne, lookup_singleton_ne.
  - by intros ->.
Qed.

Lemma filter_high_sort (alerts : list alert) :
  filter (λ a, severity a = "high") (display_alerts_sort alerts)
  = filter (λ a, severity a = "high") alerts.
Proof.
  assert (∀ l : list alert,
            filter (λ a, severity a = "high") l
            = filter (λ a, severity_key a = 0%nat) l) as Hkey.
  { intros l. apply list_filter_iff. intros a. symmetry. apply severity_key_high. }
  rewrite !Hkey.
  rewrite display_alerts_sort_buckets, !filter_app, !filter_key_filter_key.
  simpl. by rewrite app_nil_r.
Qed.

Lemma analyze_Ok_levels py_format data unit l :
  analyze_extreme_conditions py_format data unit = Ok l →
  Forall (λ r, severity r = "high" ∨ severity r = "moderate") l.
Proof.
  intros Hl.
  destruct (analyze_Ok_classify py_format data unit l Hl)
    as (tv & fv & hv & wv & iv & t & f & h & w & i & _ & _ & _ & _ & _ & Hsig & _).
  pose proof (classify_levels unit t f h w i) as Hlev.
  by rewrite <- Hsig, Forall_fmap in Hlev.
Qed.

(** What the panel shows of a returned list: the high-severity records in
    evaluation order, then the moderate ones in evaluation order; none is
    left out. *)
Theorem display_order_of_classifier py_format data unit l :
  analyze_extreme_conditions py_format data unit = Ok l →
  display_alerts_sort l
  = filter (λ a, severity a = "high") l
      ++ filter (λ a, severity a = "moderate") l.
Proof.
  intros Hl%analyze_Ok_levels.
  rewrite display_alerts_sort_buckets.
  rewrite (list_filter_iff (λ a, severity_key a = 0%nat) (λ a, severity a = "high"))
    by (intros; apply severity_key_high).
  rewrite (list_filter_iff (λ a, severity_key a = 1%nat)
             (λ a, severity a = "moderate"))
    by (intros; apply severity_key_moderate).
  replace (filter (λ a, severity_key a = 2%nat) l) with (@nil alert);
    [by rewrite app_nil_r|].
  induction Hl as [|x l Hx _ IH]; [done|].
  rewrite filter_cons_False; [done|].
  destruct Hx as [Hx%severity_key_high|Hx%severity_key_moderate]; lia.
Qed.

Lemma display_order_of_classifier_witness :
  ∃ l,
    analyze_extreme_conditions sample_format (observation 32 41 95 25 601) "metric"
      = Ok l
    ∧ kind <$> l
      = [("temperature", "moderate"); ("feels_like", "high");
         ("humidity", "moderate"); ("wind", "high"); ("snow", "moderate")]
    ∧ kind <$> display_alerts_sort l
      = [("feels_like", "high"); ("wind", "high"); ("temperature", "moderate");
         ("humidity", "moderate"); ("snow", "moderate")]
    ∧ display_alerts_sort l
      = filter (λ a, severity a = "high") l
          ++ filter (λ a, severity a = "moderate") l.
Proof.
  eexists. split; [vm_compute; reflexivity|]. split; [reflexivity|].
  split; [reflexivity|].
  apply (display_order_of_classifier sample_format
           (observation 32 41 95 25 601) "metric").
  vm_compute. reflexivity.
Defined.

(** ** The spoken warning *)

Lemma string_length_app (s1 s2 : string) :
  String.length (s1 +:+ s2) = (String.length s1 + String.length s2)%nat.
Proof. induction s1 as [|c s1 IH]; simpl; [done|by rewrite IH]. Qed.

(** [display_alerts] sorts the very list that [get_weather] reads afterwards
    for the spoken warning; the warning is the same as from the unsorted
    list, headlines in evaluation order. *)
Theorem add_warning_after_sort (speech_text : string) (alerts : list alert) :
  add_warning speech_text (display_alerts_sort alerts)
  = add_warning speech_text alerts.
Proof. unfold add_warning. by rewrite filter_high_sort. Qed.

(** No high-severity record, no warning: the speech text is left as it is
    exactly when no record has severity "high"; otherwise it grows. *)
Theorem add_warning_silent (speech_text : string) (alerts : list alert) :
  add_warning speech_text alerts = speech_text
  ↔ Forall (λ a, severity a ≠ "high") alerts.
Proof.
  unfold add_warning.
  destruct (filter (λ a, severity a = "high") alerts) as [|a high] eqn:E.
  - split; [intros _|done].
    apply Forall_forall. intros a Ha Hhigh.
    assert (a ∈ filter (λ a, severity a = "high") alerts) as Hin
      by (by apply list_elem_of_filter).
    rewrite E in Hin. by apply elem_of_nil in Hin.
  - split.
    + intros Heq. exfalso.
      assert (String.length (speech_text +:+ (" Warning: " +:+
                String.concat ". " (message <$> a :: high)))
              = String.length speech_text) as Hlen by (by rewrite Heq).
      rewrite !string_length_app in Hlen. simpl in Hlen. lia.
    + intros Hall. exfalso.
      assert (a ∈ filter (λ a, severity a = "high") alerts) as Hin
        by (rewrite E; left).
      apply list_elem_of_filter in Hin as [Hhigh Hin].
      rewrite Forall_forall in Hall. by apply (Hall a Hin).
Qed.

(** ** The panel *)

Lemma display_alerts_sort_Permutation (alerts : list alert) :
  display_alerts_sort alerts ≡ₚ alerts.
Proof.
  induction alerts as [|x l IH]; [done|].
  change (display_alerts_sort (x :: l))
    with (insert_by_key x (display_alerts_sort l)).
  by rewrite insert_by_key_Permutation, IH.
Qed.

(** The alert panel is shown exactly when the checkbox is ticked and the
    list is not empty.  Shown, it has the header and one banner per alert,
    none lost; hidden, it has no control and the list is left unsorted. *)
Theorem display_alerts_panel (alerts_checkbox : bool) (alerts : list alert) :
  let (alerts_after, panel) := display_alerts alerts_checkbox alerts in
  (visible panel = true ↔ alerts_checkbox = true ∧ alerts ≠ [])
  ∧ (visible panel = false → controls panel = [] ∧ alerts_after = alerts)
  ∧ (visible panel = true →
     ∃ header banners,
       controls panel = Header header :: banners
       ∧ banners ≡ₚ (Banner ∘ create_alert_banner <$> alerts)
       ∧ alerts_after ≡ₚ alerts).
Proof.
  unfold display_alerts.
  destruct alerts_checkbox, alerts as [|a alerts]; cbn [negb orb visible controls];
    split_and!; try (intuition congruence).
  intros _. eexists _, _. split; [reflexivity|].
  split; [|apply display_alerts_sort_Permutation].
  by rewrite display_alerts_sort_Permutation.
Qed.

(** * The search history *)

Lemma add_to_history_NoDup h city : NoDup h → NoDup (add_to_history h city).
Proof.
  intros Hh. unfold add_to_history. case_bool_decide as Hin; [done|].
  eapply sublist_NoDup; [|apply sublist_take]. by constructor.
Qed.

Lemma add_to_history_length h city :
  (length h ≤ 10 → length (add_to_history h city) ≤ 10)%nat.
Proof.
  intros Hh. unfold add_to_history. case_bool_decide; [done|].
  rewrite length_take. lia.
Qed.

(** Whatever cities are searched, in whatever order, a history without
    duplicates and with at most ten entries stays so, and the city searched
    last is in it. *)
Theorem search_history_invariant (h : list string) (cities : list string) :
  NoDup h →
  (length h ≤ 10)%nat →
  NoDup (foldl add_to_history h cities)
  ∧ (length (foldl add_to_history h cities) ≤ 10)%nat
  ∧ ∀ city, last cities = Some city → city ∈ foldl add_to_history h cities.
Proof.
  revert h. induction cities as [|c cities IH]; intros h Hnd Hlen.
  - by split_and!.
  - simpl.
    destruct (IH (add_to_history h c)) as (IH1 & IH2 & IH3);
      [by apply add_to_history_NoDup|by apply add_to_history_length|].
    split_and!; [done..|].
    intros city Hlast. destruct cities as [|c' cities'].
    + injection Hlast as ->. simpl. unfold add_to_history.
      case_bool_decide; [done|]. simpl. left.
    + by apply IH3.
Qed.

Lemma search_history_invariant_witness :
  NoDup (foldl add_to_history ["Cebu"; "Naga"] ["Manila"; "Naga"; "Davao"])
  ∧ (length (foldl add_to_history ["Cebu"; "Naga"] ["Manila"; "Naga"; "Davao"])
     ≤ 10)%nat
  ∧ ∀ city, last ["Manila"; "Naga"; "Davao"] = Some city →
            city ∈ foldl add_to_history ["Cebu"; "Naga"] ["Manila"; "Naga"; "Davao"].
Proof.
  apply (search_history_invariant ["Cebu"; "Naga"] ["Manila"; "Naga"; "Davao"]).
  - apply (bool_decide_unpack (NoDup _)). vm_compute. exact I.
  - simpl. lia.
Defined.

Lemma take_app_take {A} (n : nat) (l k : list A) :
  take n (l ++ take n k) = take n (l ++ k).
Proof. rewrite !take_app, take_take. f_equal. f_equal. lia. Qed.

Lemma foldl_add_fresh (h cities : list string) :
  (length h ≤ 10)%nat →
  NoDup cities →
  (∀ city, city ∈ cities → city ∉ h) →
  foldl add_to_history h cities = take 10 (reverse cities ++ h).
Proof.
  revert h. induction cities as [|c cities IH]; intros h Hlen Hnd Hfresh.
  - simpl. by rewrite take_ge.
  - apply NoDup_cons in Hnd as [Hc Hnd]. simpl.
    assert (add_to_history h c = take 10 (c :: h)) as ->.
    { unfold add_to_history. rewrite bool_decide_false; [done|].
      apply Hfresh. left. }
    rewrite IH; [| rewrite length_take; lia | done |].
    + by rewrite take_app_take, reverse_cons, <- (assoc_L (++)).
    + intros city Hcity Hin.
      apply (subseteq_take 10 (c :: h)) in Hin.
      apply elem_of_cons in Hin as [->|Hin]; [done|].
      apply (Hfresh city); [by right|done].
Qed.

(** Searches for cities that are all different, starting from an empty
    history, leave the last ten of them, the newest first. *)
Theorem history_newest_first (cities : list string) :
  NoDup cities →
  foldl add_to_history [] cities = take 10 (reverse cities).
Proof.
  intros Hnd. rewrite foldl_add_fresh; [by rewrite app_nil_r|simpl; lia|done|].
  intros city _. apply not_elem_of_nil.
Qed.

Lemma history_newest_first_witness :
  foldl add_to_history [] ["Manila"; "Cebu"; "Davao"] = ["Davao"; "Cebu"; "Manila"].
Proof.
  apply (history_newest_first ["Manila"; "Cebu"; "Davao"]).
  apply (bool_decide_unpack (NoDup _)). vm_compute. exact I.
Defined.

(** A city that is already in the history is not moved to the front when it
    is searched again.  So in a full history the oldest city, searched
    again, is still the one the next new city pushes out. *)
Theorem history_no_refresh (older : list string) (oldest new : string) :
  length (older ++ [oldest]) = 10%nat →
  new ∉ older ++ [oldest] →
  add_to_history (older ++ [oldest]) oldest = older ++ [oldest]
  ∧ add_to_history (add_to_history (older ++ [oldest]) oldest) new
    = new :: older.
Proof.
  intros Hlen Hnew.
  assert (add_to_history (older ++ [oldest]) oldest = older ++ [oldest]) as Hsame.
  { unfold add_to_history. rewrite bool_decide_true; [done|].
    apply elem_of_app. right. left. }
  split; [exact Hsame|]. rewrite Hsame.
  unfold add_to_history. rewrite bool_decide_false by done.
  change (take 10 (new :: older ++ [oldest]))
    with (new :: take 9 (older ++ [oldest])).
  f_equal. apply take_app_length'. rewrite length_app in Hlen. simpl in Hlen. lia.
Qed.

Lemma history_no_refresh_witness :
  add_to_history
    (add_to_history ["j"; "i"; "h"; "g"; "f"; "e"; "d"; "c"; "b"; "a"] "a") "k"
  = ["k"; "j"; "i"; "h"; "g"; "f"; "e"; "d"; "c"; "b"].
Proof.
  apply (history_no_refresh ["j"; "i"; "h"; "g"; "f"; "e"; "d"; "c"; "b"] "a" "k").
  - reflexivity.
  - apply (bool_decide_unpack (_ ∉ _)). vm_compute. exact I.
Defined.
